(** * EPCET smart library: the Streamlit front end (frontend/app.py)

    A shallow embedding of the API client [LibraryAPI] and of the page
    handlers of [frontend/app.py], with the properties of the client/view
    layer stated over it.

    Python values are an inductive type, exceptions are an explicit
    [result], and the effects of a render pass (HTTP requests, widgets
    drawn, console output) are recorded in a trace threaded through a small
    state-and-exception monad.  The Library Service behind the HTTP calls is
    a parameter: a function from the trace so far and the request to what
    the [requests] call does. *)

From Stdlib Require Import ZArith QArith List String Ascii Bool Lia.
From Stdlib Require Import DecimalString.
Import ListNotations.

Set Warnings "-register-all".

Open Scope string_scope.
Open Scope list_scope.

(** String concatenation, kept apart from the append of lists. *)
Infix "+++" := String.append (right associativity, at level 60).

(* ================================================================== *)
(** ** Python values *)

(** What [response.json()] produces and what the pages pass around.
    A finite float is carried by its exact value; [VNaN] is [float('nan')],
    which pandas also uses for a missing cell.  A dict is the list of its
    items in insertion order (keys are distinct in a Python dict). *)
Inductive value : Type :=
| VNone
| VBool (b : bool)
| VInt (z : Z)
| VFloat (q : Q)
| VNaN
| VStr (s : string)
| VList (l : list value)
| VDict (items : list (string * value)).

Definition record := list (string * value).

(** [bool(v)] *)
Definition truthy (v : value) : bool :=
  match v with
  | VNone => false
  | VBool b => b
  | VInt z => negb (z =? 0)%Z
  | VFloat q => negb (Qeq_bool q 0)
  | VNaN => true
  | VStr s => negb (s =? "")
  | VList l => match l with [] => false | _ => true end
  | VDict d => match d with [] => false | _ => true end
  end.

(** [isinstance(v, dict)] *)
Definition is_dict (v : value) : bool :=
  match v with VDict _ => true | _ => false end.

Fixpoint assoc {A : Type} (k : string) (d : list (string * A)) : option A :=
  match d with
  | [] => None
  | (k', v) :: d' => if k' =? k then Some v else assoc k d'
  end.

Definition has_key {A : Type} (k : string) (d : list (string * A)) : bool :=
  match assoc k d with Some _ => true | None => false end.

(** [str(n)] for an [int] *)
Definition str_int (z : Z) : string := NilZero.string_of_int (Z.to_int z).

(* ================================================================== *)
(** ** Exceptions *)

(** The exception classes that occur.  [ConnectTimeout] derives from both
    [ConnectionError] and [Timeout] in [requests]; [RerunException] is
    Streamlit's control-flow signal raised by [st.rerun()], which derives
    from [BaseException] only.  [KeyErrorLabels] is the [KeyError] pandas
    raises for a list of labels, which names every label it did not find.
    [OtherException] stands for any further subclass of [Exception]. *)
Inductive exn : Type :=
| ConnectionError (msg : string)
| ConnectTimeout (msg : string)
| ReadTimeout (msg : string)
| JSONDecodeError (msg : string)
| UnboundLocalError (name : string)
| AttributeError (attr : string)
| KeyError (key : string)
| KeyErrorLabels (missing : list string)
| IndexError
| TypeError
| ValueError
| OtherException (msg : string)
| RerunException.

Definition isinstance_ConnectionError (e : exn) : bool :=
  match e with ConnectionError _ | ConnectTimeout _ => true | _ => false end.

Definition isinstance_Timeout (e : exn) : bool :=
  match e with ConnectTimeout _ | ReadTimeout _ => true | _ => false end.

Definition isinstance_Exception (e : exn) : bool :=
  match e with RerunException => false | _ => true end.

Inductive result (A : Type) : Type :=
| Ok (a : A)
| Raise (e : exn).
Arguments Ok {A} a.
Arguments Raise {A} e.

(** [v[k]] on a value: subscripting a dict; anything else the pages
    subscript this way is not subscriptable by a string. *)
Definition getitem (v : value) (k : string) : result value :=
  match v with
  | VDict d => match assoc k d with Some x => Ok x | None => Raise (KeyError k) end
  | _ => Raise TypeError
  end.

(** [v.get(k, default)]: only a dict has the method. *)
Definition get_method (v : value) (k : string) (default : value) : result value :=
  match v with
  | VDict d => Ok (match assoc k d with Some x => x | None => default end)
  | _ => Raise (AttributeError "get")
  end.

(** [v.get(k)] *)
Definition get1 (v : value) (k : string) : result value := get_method v k VNone.

(* ================================================================== *)
(** ** HTTP and the trace of a render pass *)

Record request : Type := mkRequest {
  req_method : string;
  req_url : string;
  req_json : option value;
  req_timeout : Z
}.

(** A [requests.Response]: [resp_json] is what [response.json()] returns,
    [None] when the body is not valid JSON (the call then raises). *)
Record Response : Type := mkResponse {
  status_code : Z;
  resp_json : option value;
  resp_text : string
}.

(** What a [requests] call can do instead of returning a response. *)
Inductive transport_failure : Type :=
| TConnectionError (msg : string)
| TConnectTimeout (msg : string)
| TReadTimeout (msg : string)
| TOther (msg : string).

Definition exn_of_failure (f : transport_failure) : exn :=
  match f with
  | TConnectionError m => ConnectionError m
  | TConnectTimeout m => ConnectTimeout m
  | TReadTimeout m => ReadTimeout m
  | TOther m => OtherException m
  end.

Inductive outcome : Type :=
| Responds (r : Response)
| Fails (f : transport_failure).

(** A formatted string whose pieces are kept apart: literal text and the
    values interpolated into the f-string. *)
Inductive frag : Type :=
| Lit (s : string)
| Fmt (v : value)
| FmtExn (e : exn).

Definition fstring := list frag.

(** A frame as pandas builds it from a list of JSON objects: the column
    labels and, per row, the cell of every column. *)
Record DataFrame : Type := mkFrame {
  columns : list string;
  rows : list record
}.

(** What a render pass does, in order.  Layout containers ([st.columns],
    [st.tabs], [st.form], [st.spinner] and their [with] blocks) draw
    nothing of their own and leave no event. *)
Inductive event : Type :=
| Http (r : request)
| StError (m : fstring)
| StWarning (m : fstring)
| StInfo (m : fstring)
| StSuccess (m : fstring)
| StMarkdown (html : string)
| StSubheader (s : string)
| StMetric (label : string) (v : value)
| StDataframe (df : DataFrame)
| StPlotlyChart (kind title : string) (df : DataFrame)
| StJson (v : value)
| StSelectbox (label : string) (options : list value)
| ConsolePrint (m : fstring)
| Sleep (seconds : Z).

Definition trace := list event.

Definition is_http (e : event) : bool :=
  match e with Http _ => true | _ => false end.

(** The HTTP requests issued during a pass. *)
Fixpoint requests_of (t : trace) : list request :=
  match t with
  | [] => []
  | Http r :: t' => r :: requests_of t'
  | _ :: t' => requests_of t'
  end.

(** The error banners shown during a pass. *)
Fixpoint errors_of (t : trace) : list fstring :=
  match t with
  | [] => []
  | StError m :: t' => m :: errors_of t'
  | _ :: t' => errors_of t'
  end.

(* ================================================================== *)
(** ** The monad of a render pass *)

Definition M (A : Type) : Type := trace -> result A * trace.

Definition ret {A} (a : A) : M A := fun t => (Ok a, t).

Definition bind {A B} (m : M A) (k : A -> M B) : M B :=
  fun t => match m t with
           | (Ok a, t') => k a t'
           | (Raise e, t') => (Raise e, t')
           end.

Definition raise {A} (e : exn) : M A := fun t => (Raise e, t).

Definition lift {A} (r : result A) : M A := fun t => (r, t).

Definition emit (e : event) : M unit := fun t => (Ok tt, t ++ [e]).

(** [try: body except ...: handler] *)
Definition try_except {A} (body : M A) (handler : exn -> M A) : M A :=
  fun t => match body t with
           | (Ok a, t') => (Ok a, t')
           | (Raise e, t') => handler e t'
           end.

Notation "x <- m ;; k" := (bind m (fun x => k))
  (at level 61, m at next level, right associativity).
Notation "m ;;; k" := (bind m (fun _ => k))
  (at level 61, right associativity).

Definition st_error (m : fstring) : M unit := emit (StError m).
Definition st_markdown (s : string) : M unit := emit (StMarkdown s).
Definition print (m : fstring) : M unit := emit (ConsolePrint m).
Definition time_sleep (s : Z) : M unit := emit (Sleep s).
Definition st_rerun {A} : M A := raise RerunException.

(** Run a pass from the empty trace. *)
Definition run {A} (m : M A) : result A * trace := m [].

(* ================================================================== *)
(** ** class LibraryAPI *)

Definition API_BASE : string := "http://localhost:5001/api".

Record LibraryAPI : Type := mkAPI { base_url : string }.

Definition api : LibraryAPI := mkAPI API_BASE.

Section Client.

(** The Library Service and the transport in front of it: what the
    [requests] call does, given everything the pass has done so far. *)
Variable net : trace -> request -> outcome.

Definition requests_call (r : request) : M Response :=
  fun t => match net t r with
           | Responds resp => (Ok resp, t ++ [Http r])
           | Fails f => (Raise (exn_of_failure f), t ++ [Http r])
           end.

Definition requests_get (url : string) : M Response :=
  requests_call (mkRequest "GET" url None 10).
Definition requests_post (url : string) (data : option value) : M Response :=
  requests_call (mkRequest "POST" url data 10).
Definition requests_put (url : string) (data : option value) : M Response :=
  requests_call (mkRequest "PUT" url data 10).
Definition requests_delete (url : string) : M Response :=
  requests_call (mkRequest "DELETE" url None 10).

(** [response.json()] *)
Definition response_json (r : Response) : M value :=
  match resp_json r with
  | Some v => ret v
  | None => raise (JSONDecodeError "Expecting value")
  end.

(** Reading the local [response], which no branch has bound when the
    method is none of the four. *)
Definition read_response (r : option Response) : M Response :=
  match r with
  | Some resp => ret resp
  | None => raise (UnboundLocalError "response")
  end.

(** The body of the [try] of [_make_request]. *)
Definition make_request_body (self : LibraryAPI) (endpoint method : string)
    (data : option value) : M value :=
  let url := base_url self +++ endpoint in
  bound <- (if method =? "GET" then r <- requests_get url ;; ret (Some r)
            else if method =? "POST" then r <- requests_post url data ;; ret (Some r)
            else if method =? "PUT" then r <- requests_put url data ;; ret (Some r)
            else if method =? "DELETE" then r <- requests_delete url ;; ret (Some r)
            else ret None) ;;
  response <- read_response bound ;;
  if (status_code response =? 200)%Z then
    response_json response
  else
    body <- response_json response ;;
    error_msg <- lift (get_method body "error" (VStr "Unknown error")) ;;
    st_error [Lit "API Error ("; Fmt (VInt (status_code response)); Lit "): ";
              Fmt error_msg] ;;;
    print [Lit "Full error response: "; Lit (resp_text response)] ;;;
    ret VNone.

Definition connection_banner : fstring :=
  [Lit "❌ Cannot connect to the server. Please make sure the backend is running."].
Definition timeout_banner : fstring :=
  [Lit "⏰ Request timeout. The server is taking too long to respond."].

(** The [except] clauses of [_make_request], tried in order. *)
Definition make_request_handler (e : exn) : M value :=
  if isinstance_ConnectionError e then
    st_error connection_banner ;;; ret VNone
  else if isinstance_Timeout e then
    st_error timeout_banner ;;; ret VNone
  else if isinstance_Exception e then
    st_error [Lit "Error: "; FmtExn e] ;;;
    print [Lit "Detailed error: "; FmtExn e] ;;;
    ret VNone
  else raise e.

Definition _make_request (self : LibraryAPI) (endpoint method : string)
    (data : option value) : M value :=
  try_except (make_request_body self endpoint method data) make_request_handler.


Definition get_health (self : LibraryAPI) : M value :=
  _make_request self "/health" "GET" None.

(** Books *)
Definition get_books (self : LibraryAPI) (page limit : Z) (search category : string)
  : M value :=
  let params := "?page=" +++ str_int page +++ "&limit=" +++ str_int limit in
  let params := if negb (search =? "") then params +++ "&search=" +++ search
                else params in
  let params := if negb (category =? "") then params +++ "&category=" +++ category
                else params in
  _make_request self ("/books" +++ params) "GET" None.

Definition add_book (self : LibraryAPI) (book_data : value) : M value :=
  _make_request self "/books" "POST" (Some book_data).

(** Users *)
Definition get_users (self : LibraryAPI) (page limit : Z) (user_type : string)
  : M value :=
  let params := "?page=" +++ str_int page +++ "&limit=" +++ str_int limit in
  let params := if negb (user_type =? "") then params +++ "&userType=" +++ user_type
                else params in
  _make_request self ("/users" +++ params) "GET" None.

Definition add_user (self : LibraryAPI) (user_data : value) : M value :=
  _make_request self "/users" "POST" (Some user_data).

(** Transactions *)
Definition borrow_book (self : LibraryAPI) (book_id user_id : value) (days : Z)
  : M value :=
  _make_request self "/transactions/borrow" "POST"
    (Some (VDict [("bookId", book_id); ("userId", user_id); ("days", VInt days)])).

Definition return_book (self : LibraryAPI) (transaction_id : string) : M value :=
  _make_request self "/transactions/return" "POST"
    (Some (VDict [("transactionId", VStr transaction_id)])).

Definition get_transactions (self : LibraryAPI) (page limit : Z) (status : string)
  : M value :=
  let params := "?page=" +++ str_int page +++ "&limit=" +++ str_int limit in
  let params := if negb (status =? "") then params +++ "&status=" +++ status
                else params in
  _make_request self ("/transactions" +++ params) "GET" None.

Definition get_overdue_transactions (self : LibraryAPI) : M value :=
  _make_request self "/transactions/overdue" "GET" None.

(** Analytics *)
Definition get_dashboard_stats (self : LibraryAPI) : M value :=
  _make_request self "/analytics/dashboard" "GET" None.

Definition get_most_borrowed (self : LibraryAPI) (limit : Z) (period : string)
  : M value :=
  _make_request self
    ("/analytics/most-borrowed?limit=" +++ str_int limit +++ "&period=" +++ period)
    "GET" None.

End Client.

(* ================================================================== *)
(** ** Python strings *)

(** [s.split(sep)] for a non-empty [sep], scanning left to right:
    [skip] counts the characters of a separator just matched that are
    still to be passed over, [cur] is the piece being collected. *)
Fixpoint split_go (sep s : string) (skip : nat) (cur : string) : list string :=
  match s with
  | EmptyString => [cur]
  | String c s' =>
      match skip with
      | S k => split_go sep s' k cur
      | O =>
          if String.prefix sep s
          then cur :: split_go sep s' (String.length sep - 1) ""
          else split_go sep s' 0 (cur +++ String c "")
      end
  end.

(** [s.split(sep)]; an empty separator is a [ValueError]. *)
Definition str_split (s sep : string) : result (list string) :=
  if sep =? "" then Raise ValueError else Ok (split_go sep s 0 "").

(** [sep in s] *)
Fixpoint str_contains (sep s : string) : bool :=
  String.prefix sep s ||
  match s with
  | EmptyString => false
  | String _ s' => str_contains sep s'
  end.

(** [s.endswith(suffix)] *)
Fixpoint str_endswith (s suffix : string) : bool :=
  (s =? suffix) ||
  match s with
  | EmptyString => false
  | String _ s' => str_endswith s' suffix
  end.

(** [str(v)], which an f-string applies to what it interpolates.  The
    text of a float and of a container is the interpreter's and is left as
    the parameter [repr_other]. *)
Definition py_str (repr_other : value -> string) (v : value) : string :=
  match v with
  | VStr s => s
  | VNone => "None"
  | VBool true => "True"
  | VBool false => "False"
  | VInt z => str_int z
  | VNaN => "nan"
  | _ => repr_other v
  end.

(** [v == 'literal'] *)
Definition eq_str (v : value) (s : string) : bool :=
  match v with VStr s' => s' =? s | _ => false end.

(* ================================================================== *)
(** ** Computations that can raise *)

Definition rbind {A B} (r : result A) (k : A -> result B) : result B :=
  match r with Ok a => k a | Raise e => Raise e end.

Notation "x <-- r ;; k" := (rbind r (fun x => k))
  (at level 61, r at next level, right associativity).

Fixpoint mapM {A B} (f : A -> result B) (l : list A) : result (list B) :=
  match l with
  | [] => Ok []
  | a :: l' => b <-- f a ;; bs <-- mapM f l' ;; Ok (b :: bs)
  end.

(* ================================================================== *)
(** ** pandas frames *)

(** Model of [pd.DataFrame(records)] for a list of JSON objects: the
    columns are the keys in order of first appearance, and a record that
    lacks a key gets NaN in that column.  Cells keep the value they had in
    the record.  That is what pandas holds for a column of strings, of
    objects, or of integers that are all present; it is not what pandas
    holds where it converts inside a column (an int next to a missing
    cell or a float becomes a float, a [None] in such a column becomes
    NaN, and newer versions also turn a [None] among strings into NaN).
    The properties below that read cells are stated for records whose
    cells are typed so that no such conversion applies. *)
Fixpoint add_keys (seen : list string) (r : record) : list string :=
  match r with
  | [] => seen
  | (k, _) :: r' =>
      if existsb (String.eqb k) seen then add_keys seen r'
      else add_keys (seen ++ [k]) r'
  end.

Definition frame_columns (records : list record) : list string :=
  fold_left add_keys records [].

Definition fill_row (cols : list string) (r : record) : record :=
  map (fun c => (c, match assoc c r with Some v => v | None => VNaN end)) cols.

Definition frame_of_records (records : list record) : DataFrame :=
  let cols := frame_columns records in
  mkFrame cols (map (fill_row cols) records).

Fixpoint as_records (l : list value) : option (list record) :=
  match l with
  | [] => Some []
  | VDict d :: l' =>
      match as_records l' with Some rs => Some (d :: rs) | None => None end
  | _ :: _ => None
  end.

(** A JSON value that is neither an object nor an array. *)
Definition is_scalar (v : value) : bool :=
  match v with VList _ | VDict _ => false | _ => true end.

(** [pd.DataFrame(data)] on a payload.  The API contract makes [data] a
    list of objects.  [None] and an empty dict give the empty frame.  A
    list of scalars gives one column labelled by its position, the int 0,
    written here as the text "0": the pages ask for columns by name and
    never for that one.  A scalar, like a dict of scalars, is rejected
    with [ValueError].  What pandas builds from the remaining shapes (a
    list mixing objects with other values, a list of lists, a dict of
    lists or dicts) is not modelled, and the model raises there too. *)
Definition pd_DataFrame (data : value) : result DataFrame :=
  match data with
  | VNone => Ok (frame_of_records [])
  | VDict [] => Ok (frame_of_records [])
  | VList l =>
      match as_records l with
      | Some rs => Ok (frame_of_records rs)
      | None =>
          if forallb is_scalar l
          then Ok (frame_of_records (map (fun v => [("0", v)]) l))
          else Raise ValueError
      end
  | _ => Raise ValueError
  end.

(** [df.empty]: no rows or no columns. *)
Definition df_empty (df : DataFrame) : bool :=
  match rows df, columns df with
  | [], _ => true
  | _, [] => true
  | _, _ => false
  end.

(** ['c' in df.columns] *)
Definition has_column (c : string) (df : DataFrame) : bool :=
  existsb (String.eqb c) (columns df).

(** [row['c']] for a row of [df.iterrows()] *)
Definition row_getitem (row : record) (c : string) : result value :=
  match assoc c row with
  | Some v => Ok v
  | None => Raise (KeyError c)
  end.

(** [row.get('c', default)] *)
Definition row_get (row : record) (c : string) (default : value) : value :=
  match assoc c row with
  | Some v => v
  | None => default
  end.

(** [df['c']]: the cells of a column, top to bottom. *)
Definition column (df : DataFrame) (c : string) : result (list value) :=
  if has_column c df then mapM (fun r => row_getitem r c) (rows df)
  else Raise (KeyError c).

(** [df[['c1', ..., 'cn']]]: the [KeyError] names all the labels that
    are not columns. *)
Definition select_columns (df : DataFrame) (cs : list string) : result DataFrame :=
  match filter (fun c => negb (has_column c df)) cs with
  | _ :: _ as missing => Raise (KeyErrorLabels missing)
  | [] =>
      Ok (mkFrame cs
            (map (fun r => map (fun c => (c, row_get r c VNaN)) cs) (rows df)))
  end.

(** [series.iloc[0]] *)
Definition iloc0 (s : list value) : result value :=
  match s with
  | v :: _ => Ok v
  | [] => Raise IndexError
  end.

(** [df['c'] = series] for a new column label and a series of the frame's
    length. *)
Fixpoint zip_cells (c : string) (rs : list record) (s : list value) : list record :=
  match rs, s with
  | r :: rs', v :: s' => (r ++ [(c, v)]) :: zip_cells c rs' s'
  | _, _ => []
  end.

Definition set_column (df : DataFrame) (c : string) (s : list value) : DataFrame :=
  mkFrame (columns df ++ [c]) (zip_cells c (rows df) s).

(** [df[mask]] *)
Fixpoint mask_rows (rs : list record) (mask : list bool) : list record :=
  match rs, mask with
  | r :: rs', b :: mask' =>
      if b then r :: mask_rows rs' mask' else mask_rows rs' mask'
  | _, _ => []
  end.

Definition is_null (v : value) : bool :=
  match v with VNone | VNaN => true | _ => false end.

Definition is_number (v : value) : bool :=
  match v with VInt _ | VFloat _ | VNaN => true | _ => false end.

(** An int cell within the range of [int64], of [uint64]. *)
Definition in_int64 (v : value) : bool :=
  match v with
  | VInt z => (- 2 ^ 63 <=? z)%Z && (z <? 2 ^ 63)%Z
  | _ => true
  end.

Definition in_uint64 (v : value) : bool :=
  match v with
  | VInt z => (0 <=? z)%Z && (z <? 2 ^ 64)%Z
  | _ => true
  end.

(** Whether pandas gives the column a numeric dtype: every cell is an
    int, a float or missing, not all of them are [None], and the ints fit
    one 64-bit type, signed or unsigned.  An int beyond 64 bits, or
    negative ints next to ints from 2^63 on, leave the column with dtype
    object. *)
Definition number_dtype (cells : list value) : bool :=
  forallb (fun v => is_number v || is_null v) cells
  && existsb is_number cells
  && (forallb in_int64 cells || forallb in_uint64 cells).

(** One cell of [series > 0]: a missing cell compares false, a string or
    a container cannot be ordered against an int. *)
Definition cell_gt0 (v : value) : result bool :=
  match v with
  | VInt z => Ok (0 <? z)%Z
  | VFloat q => Ok (negb (Qle_bool q 0))
  | VBool b => Ok b
  | VNone | VNaN => Ok false
  | VStr _ | VList _ | VDict _ => Raise TypeError
  end.

Definition series_gt0 (s : list value) : result (list bool) := mapM cell_gt0 s.

(** One cell of [series + " by "]: missing stays missing, anything but a
    string cannot be added to a string. *)
Definition cell_add_str (suffix : string) (v : value) : result value :=
  match v with
  | VStr s => Ok (VStr (s +++ suffix))
  | VNone | VNaN => Ok VNaN
  | _ => Raise TypeError
  end.

(** [series + "literal"]; a column of numeric dtype fails as a whole. *)
Definition series_add_str (s : list value) (suffix : string) : result (list value) :=
  if number_dtype s then Raise TypeError else mapM (cell_add_str suffix) s.

Definition cell_add (a b : value) : result value :=
  match a, b with
  | VStr x, VStr y => Ok (VStr (x +++ y))
  | (VNone | VNaN), _ => Ok VNaN
  | _, (VNone | VNaN) => Ok VNaN
  | _, _ => Raise TypeError
  end.

(** [series1 + series2] on two columns of one frame *)
Fixpoint series_add (s1 s2 : list value) : result (list value) :=
  match s1, s2 with
  | a :: s1', b :: s2' =>
      c <-- cell_add a b ;; cs <-- series_add s1' s2' ;; Ok (c :: cs)
  | _, _ => Ok []
  end.

(** [df.select_dtypes(include=['number']).columns] *)
Definition numeric_columns (df : DataFrame) : list string :=
  filter (fun c => number_dtype (map (fun r => row_get r c VNaN) (rows df)))
         (columns df).

(* ================================================================== *)
(** ** The display logic of the pages *)

(** [v and v.get('success')], as the condition of an [if] *)
Definition and_success (v : value) : result bool :=
  if truthy v then s <-- get1 v "success" ;; Ok (truthy s) else Ok false.

(** [row['bookId']['title'] if isinstance(row['bookId'], dict) else 'Unknown'],
    as written in the return form, the transactions table and the overdue
    table. *)
Definition book_title (row : record) : result value :=
  b <-- row_getitem row "bookId" ;;
  if is_dict b then b' <-- row_getitem row "bookId" ;; getitem b' "title"
  else Ok (VStr "Unknown").

(** [row['userId']['name'] if isinstance(row['userId'], dict) else 'Unknown'] *)
Definition user_name (row : record) : result value :=
  u <-- row_getitem row "userId" ;;
  if is_dict u then u' <-- row_getitem row "userId" ;; getitem u' "name"
  else Ok (VStr "Unknown").

Section Display.

(** [str()] of floats and containers, see [py_str]. *)
Variable repr_other : value -> string.

(** Dashboard, recent activity: the frame handed to [st.dataframe]. *)
Definition recent_activity_display (df_transactions : DataFrame) : result DataFrame :=
  display_df <-- select_columns df_transactions
                   ["transactionId"; "status"; "borrowDate"] ;;
  with_book <--
    (if has_column "bookId" df_transactions then
       col <-- column df_transactions "bookId" ;;
       first <-- iloc0 col ;;
       if is_dict first then
         col' <-- column df_transactions "bookId" ;;
         titles <-- mapM (fun x => get_method x "title" (VStr "N/A")) col' ;;
         Ok (set_column display_df "Book" titles)
       else Ok display_df
     else Ok display_df) ;;
  if has_column "userId" df_transactions then
    col <-- column df_transactions "userId" ;;
    first <-- iloc0 col ;;
    if is_dict first then
      col' <-- column df_transactions "userId" ;;
      names <-- mapM (fun x => get_method x "name" (VStr "N/A")) col' ;;
      Ok (set_column with_book "User" names)
    else Ok with_book
  else Ok with_book.

(** Return form: the entry of the selector built for one row. *)
Definition transaction_option (row : record) : result string :=
  title <-- book_title row ;;
  name <-- user_name row ;;
  let due_date := row_get row "dueDate" (VStr "") in
  tid <-- row_getitem row "transactionId" ;;
  Ok (py_str repr_other tid +++ " - " +++ py_str repr_other title +++ " (User: "
      +++ py_str repr_other name +++ ", Due: " +++ py_str repr_other due_date +++ ")").

Definition transaction_options (df_transactions : DataFrame) : result (list string) :=
  mapM transaction_option (rows df_transactions).

(** [selected_transaction.split(" - ")[0] if selected_transaction else ""];
    the selector returns [None] only when it has no entries. *)
Definition parse_transaction_id (selected_transaction : option string) : result string :=
  match selected_transaction with
  | Some s =>
      if negb (s =? "") then
        parts <-- str_split s " - " ;;
        match parts with
        | p :: _ => Ok p
        | [] => Raise IndexError
        end
      else Ok ""
  | None => Ok ""
  end.

(** Transactions table: the dict appended for one row. *)
Definition transactions_row (row : record) : result record :=
  tid <-- row_getitem row "transactionId" ;;
  book <-- book_title row ;;
  user <-- user_name row ;;
  status <-- row_getitem row "status" ;;
  borrow <-- row_getitem row "borrowDate" ;;
  Ok [("Transaction ID", tid);
      ("Book", book);
      ("User", user);
      ("Status", status);
      ("Borrow Date", borrow);
      ("Due Date", row_get row "dueDate" (VStr ""));
      ("Return Date", row_get row "returnDate" (VStr ""))].

Definition transactions_display (df_transactions : DataFrame) : result DataFrame :=
  display_data <-- mapM transactions_row (rows df_transactions) ;;
  Ok (frame_of_records display_data).

(** Overdue table: the dict appended for one row. *)
Definition overdue_row (row : record) : result record :=
  tid <-- row_getitem row "transactionId" ;;
  book <-- book_title row ;;
  user <-- user_name row ;;
  Ok [("Transaction ID", tid);
      ("Book", book);
      ("User", user);
      ("Due Date", row_get row "dueDate" (VStr ""));
      ("Overdue Days", row_get row "overdueDays" (VStr "N/A"))].

Definition overdue_display (df_overdue : DataFrame) : result DataFrame :=
  display_data <-- mapM overdue_row (rows df_overdue) ;;
  Ok (frame_of_records display_data).

End Display.

(** Borrow form: [df_books[df_books['availableCopies'] > 0]] *)
Definition available_books (df_books : DataFrame) : result DataFrame :=
  copies <-- column df_books "availableCopies" ;;
  mask <-- series_gt0 copies ;;
  Ok (mkFrame (columns df_books) (mask_rows (rows df_books) mask)).

(** Borrow form: [available_books['title'] + " by " + available_books['author']] *)
Definition book_options (available : DataFrame) : result (list value) :=
  titles <-- column available "title" ;;
  left <-- series_add_str titles " by " ;;
  authors <-- column available "author" ;;
  series_add left authors.

(** Borrow form: the entries of the "Select Book*" selector, or [None]
    when the form is not drawn (no available book or no user). *)
Definition borrow_book_selector (df_books df_users : DataFrame)
  : result (option (list value)) :=
  available <-- available_books df_books ;;
  if negb (df_empty available) && negb (df_empty df_users) then
    opts <-- book_options available ;;
    Ok (Some opts)
  else Ok None.

(** Analytics, most borrowed: the column plotted on the y axis of a
    non-empty frame. *)
Definition y_column (df_most_borrowed : DataFrame) : result string :=
  if has_column "borrowCount" df_most_borrowed then Ok "borrowCount"
  else if has_column "count" df_most_borrowed then Ok "count"
  else
    match numeric_columns df_most_borrowed with
    | c :: _ => Ok c
    | [] =>
        match columns df_most_borrowed with
        | _ :: c :: _ => Ok c
        | _ => Raise IndexError
        end
    end.

(* ================================================================== *)
(** ** The pages *)

Definition dq : string := String (ascii_of_nat 34) "".

(** [st.markdown('<div class="cls">body</div>', unsafe_allow_html=True)] *)
Definition div_html (cls body : string) : string :=
  "<div class=" +++ dq +++ cls +++ dq +++ ">" +++ body +++ "</div>".

Definition backend_banner : fstring :=
  [Lit "🔌 Backend server is not connected. Please make sure the server is running on localhost:5001"].

Definition required_banner : fstring :=
  [Lit "Please fill in all required fields (*)"].

(** The values of the widgets of the add-book form in one pass. *)
Record AddBookForm : Type := mkAddBookForm {
  ab_title : string;
  ab_author : string;
  ab_category : string;
  ab_isbn : string;
  ab_total_copies : Z;
  ab_published_year : Z;
  ab_description : string;
  ab_submitted : bool
}.

(** The values of the widgets of the add-user form in one pass. *)
Record AddUserForm : Type := mkAddUserForm {
  au_name : string;
  au_email : string;
  au_user_type : string;
  au_department : string;
  au_submitted : bool
}.

(** [s if s else None] for a text input *)
Definition str_or_none (s : string) : value :=
  if negb (s =? "") then VStr s else VNone.

(** [n if n else None] for a number input *)
Definition int_or_none (n : Z) : value :=
  if negb (n =? 0)%Z then VInt n else VNone.

(** [book_data] of the add-book form *)
Definition book_data (w : AddBookForm) : value :=
  VDict [("title", VStr (ab_title w));
         ("author", VStr (ab_author w));
         ("category", VStr (ab_category w));
         ("isbn", str_or_none (ab_isbn w));
         ("totalCopies", VInt (ab_total_copies w));
         ("availableCopies", VInt (ab_total_copies w));
         ("publishedYear", int_or_none (ab_published_year w));
         ("description", str_or_none (ab_description w))].

(** [user_data] of the add-user form *)
Definition user_data (w : AddUserForm) : value :=
  VDict [("name", VStr (au_name w));
         ("email", VStr (au_email w));
         ("userType", VStr (au_user_type w));
         ("department", str_or_none (au_department w))].

Section Pages.

Variable net : trace -> request -> outcome.

Definition check_connection : M bool :=
  health <- get_health net api ;;
  if truthy health then
    status <- lift (get1 health "status") ;;
    ret (eq_str status "OK")
  else ret false.

(** [px.pie] / [px.bar] followed by [st.plotly_chart]: plotly rejects a
    frame that lacks a column it is asked to plot. *)
Definition plotly_chart (kind title : string) (df : DataFrame) (cols : list string)
  : M unit :=
  match find (fun c => negb (has_column c df)) cols with
  | Some _ => raise ValueError
  | None => emit (StPlotlyChart kind title df)
  end.

Definition st_metric (label : string) (data : value) (key : string) : M unit :=
  v <- lift (getitem data key) ;;
  emit (StMetric label v).

(** The part of [main_page] below the connection check. *)
Definition dashboard_overview : M unit :=
  st_markdown (div_html "sub-header" "📊 Dashboard Overview") ;;;
  stats <- get_dashboard_stats net api ;;
  ok <- lift (and_success stats) ;;
  if ok then
    data <- lift (d <-- getitem stats "data" ;; getitem d "overview") ;;
    st_metric "Total Books" data "totalBooks" ;;;
    st_metric "Available Books" data "availableBooks" ;;;
    st_metric "Total Users" data "totalUsers" ;;;
    st_metric "Active Borrows" data "activeBorrows" ;;;
    st_metric "Total Transactions" data "totalTransactions" ;;;
    st_metric "Overdue Books" data "overdueBooks" ;;;
    categories_data <- lift (d <-- getitem stats "data" ;; getitem d "popularCategories") ;;
    (if truthy categories_data then
       df_categories <- lift (pd_DataFrame categories_data) ;;
       plotly_chart "pie" "📚 Popular Book Categories" df_categories ["count"; "_id"]
     else ret tt) ;;;
    user_stats <- lift (d <-- getitem stats "data" ;; getitem d "userTypeStats") ;;
    (if truthy user_stats then
       df_users <- lift (pd_DataFrame user_stats) ;;
       plotly_chart "bar" "👥 Borrowing by User Type" df_users ["_id"; "count"]
     else ret tt) ;;;
    st_markdown (div_html "sub-header" "🔄 Recent Activity") ;;;
    transactions <- get_transactions net api 1 10 "" ;;
    ok' <- lift (and_success transactions) ;;
    if ok' then
      df_transactions <- lift (d <-- getitem transactions "data" ;; pd_DataFrame d) ;;
      if negb (df_empty df_transactions) then
        display_df <- lift (recent_activity_display df_transactions) ;;
        emit (StDataframe display_df)
      else ret tt
    else ret tt
  else ret tt.

Definition main_page : M unit :=
  st_markdown (div_html "epcet-brand" "🏛️ EPCET LIBRARY MANAGEMENT SYSTEM") ;;;
  connected <- check_connection ;;
  if negb connected then
    st_error backend_banner ;;;
    ret tt
  else dashboard_overview.

(** Books page, "Add New Book": what follows [st.form_submit_button]. *)
Definition add_book_form (w : AddBookForm) : M unit :=
  if ab_submitted w then
    if negb (ab_title w =? "") && negb (ab_author w =? "")
       && negb (ab_category w =? "") then
      result <- add_book net api (book_data w) ;;
      ok <- lift (and_success result) ;;
      if ok then
        st_markdown (div_html "success-message" "✅ Book added successfully!") ;;;
        time_sleep 2 ;;;
        st_rerun
      else ret tt
    else st_error required_banner
  else ret tt.

(** Users page, "Add New User": what follows [st.form_submit_button]. *)
Definition add_user_form (w : AddUserForm) : M unit :=
  if au_submitted w then
    if negb (au_name w =? "") && negb (au_email w =? "")
       && negb (au_user_type w =? "") then
      result <- add_user net api (user_data w) ;;
      ok <- lift (and_success result) ;;
      if ok then
        st_markdown (div_html "success-message" "✅ User added successfully!") ;;;
        time_sleep 2 ;;;
        st_rerun
      else ret tt
    else st_error required_banner
  else ret tt.

End Pages.

(* ================================================================== *)
(** ** What one call of the client amounts to *)

(** The request [_make_request] sends for a method it knows. *)
Definition request_for (self : LibraryAPI) (endpoint method : string)
    (data : option value) : option request :=
  let url := base_url self +++ endpoint in
  if method =? "GET" then Some (mkRequest "GET" url None 10)
  else if method =? "POST" then Some (mkRequest "POST" url data 10)
  else if method =? "PUT" then Some (mkRequest "PUT" url data 10)
  else if method =? "DELETE" then Some (mkRequest "DELETE" url None 10)
  else None.

(** What the [except] clauses show for an exception they catch. *)
Definition failure_events (e : exn) : list event :=
  if isinstance_ConnectionError e then [StError connection_banner]
  else if isinstance_Timeout e then [StError timeout_banner]
  else [StError [Lit "Error: "; FmtExn e];
        ConsolePrint [Lit "Detailed error: "; FmtExn e]].

(** The banner of the status branch. *)
Definition api_error_banner (status : Z) (error_msg : value) : fstring :=
  [Lit "API Error ("; Fmt (VInt status); Lit "): "; Fmt error_msg].

(** The value returned and the events shown once a response is in. *)
Definition response_result (resp : Response) : value * list event :=
  if (status_code resp =? 200)%Z then
    match resp_json resp with
    | Some v => (v, [])
    | None => (VNone, failure_events (JSONDecodeError "Expecting value"))
    end
  else
    match resp_json resp with
    | None => (VNone, failure_events (JSONDecodeError "Expecting value"))
    | Some body =>
        match get_method body "error" (VStr "Unknown error") with
        | Ok msg =>
            (VNone, [StError (api_error_banner (status_code resp) msg);
                     ConsolePrint [Lit "Full error response: ";
                                   Lit (resp_text resp)]])
        | Raise e => (VNone, failure_events e)
        end
    end.

Definition make_request_result (net : trace -> request -> outcome)
    (self : LibraryAPI) (endpoint method : string) (data : option value)
    (t : trace) : result value * trace :=
  match request_for self endpoint method data with
  | None => (Ok VNone, t ++ failure_events (UnboundLocalError "response"))
  | Some req =>
      match net t req with
      | Fails f => (Ok VNone, t ++ Http req :: failure_events (exn_of_failure f))
      | Responds resp =>
          (Ok (fst (response_result resp)),
           t ++ Http req :: snd (response_result resp))
      end
  end.

(** The one write request of the add-book and of the add-user form. *)
Definition post_books (w : AddBookForm) : request :=
  mkRequest "POST" (API_BASE +++ "/books") (Some (book_data w)) 10.

Definition post_users (w : AddUserForm) : request :=
  mkRequest "POST" (API_BASE +++ "/users") (Some (user_data w)) 10.

(* ================================================================== *)
(** ** Books as the borrow form expects them *)

(** A book record of the API contract: title and author are strings and
    the available-copy count is a non-negative integer. *)
Definition is_book (r : record) : Prop :=
  exists t a n,
    assoc "title" r = Some (VStr t) /\
    assoc "author" r = Some (VStr a) /\
    assoc "availableCopies" r = Some (VInt n) /\
    (0 <= n)%Z.

(** The available-copy count of a book. *)
Definition copies_of (r : record) : Z :=
  match assoc "availableCopies" r with
  | Some (VInt n) => n
  | _ => 0%Z
  end.

(** The title and the author of a book. *)
Definition title_of (r : record) : string :=
  match assoc "title" r with Some (VStr t) => t | _ => "" end.

Definition author_of (r : record) : string :=
  match assoc "author" r with Some (VStr a) => a | _ => "" end.

(** The entry "title by author" that stands for a book in the selector. *)
Definition label_of (r : record) : value :=
  match assoc "title" r, assoc "author" r with
  | Some (VStr t), Some (VStr a) => VStr ((t +++ " by ") +++ a)
  | _, _ => VNaN
  end.

(* ================================================================== *)
(** ** The remaining operations of LibraryAPI *)

Section ClientOperations.

Variable net : trace -> request -> outcome.

Definition get_book_categories (self : LibraryAPI) : M value :=
  _make_request net self "/books/categories" "GET" None.

(** [book_id] is the [_id] string of the selected book. *)
Definition update_book (self : LibraryAPI) (book_id : string) (book_data : value)
  : M value :=
  _make_request net self ("/books/" +++ book_id) "PUT" (Some book_data).

Definition delete_book (self : LibraryAPI) (book_id : string) : M value :=
  _make_request net self ("/books/" +++ book_id) "DELETE" None.

Definition get_user_types (self : LibraryAPI) : M value :=
  _make_request net self "/users/types" "GET" None.

Definition get_user_categories (self : LibraryAPI) : M value :=
  _make_request net self "/analytics/user-categories" "GET" None.

Definition get_reading_patterns (self : LibraryAPI) : M value :=
  _make_request net self "/analytics/reading-patterns" "GET" None.

Definition get_monthly_report (self : LibraryAPI) (year : Z) : M value :=
  _make_request net self ("/analytics/monthly-report?year=" +++ str_int year)
    "GET" None.

End ClientOperations.

(* ================================================================== *)
(** ** Python lists *)

(** [l[i]] for an int [i]: a negative index counts from the end. *)
Definition py_index {A : Type} (l : list A) (i : Z) : result A :=
  let n := Z.of_nat (List.length l) in
  let j := if (i <? 0)%Z then (i + n)%Z else i in
  if (0 <=? j)%Z && (j <? n)%Z then
    match nth_error l (Z.to_nat j) with
    | Some a => Ok a
    | None => Raise IndexError
    end
  else Raise IndexError.

(* ================================================================== *)
(** ** Analytics: month labels *)

(** [month_names] of the reading-patterns tab *)
Definition month_names_short : list string :=
  ["Jan"; "Feb"; "Mar"; "Apr"; "May"; "Jun";
   "Jul"; "Aug"; "Sep"; "Oct"; "Nov"; "Dec"].

(** [month_names] of the monthly-report tab *)
Definition month_names_full : list string :=
  ["January"; "February"; "March"; "April"; "May"; "June";
   "July"; "August"; "September"; "October"; "November"; "December"].

(** Reading patterns:
    [lambda x: month_names[x-1] if 1 <= x <= 12 else f'Month {x}'],
    applied to an int month number. *)
Definition reading_month_label (x : Z) : result string :=
  if (1 <=? x)%Z && (x <=? 12)%Z then py_index month_names_short (x - 1)
  else Ok ("Month " +++ str_int x).

(** Monthly report: [lambda x: month_names[x-1]], applied to an int month
    number. *)
Definition report_month_name (x : Z) : result string :=
  py_index month_names_full (x - 1).

(* ================================================================== *)
(** ** The tabs of the transactions page *)

Section TransactionTabs.

Variable net : trace -> request -> outcome.
Variable repr_other : value -> string.

(** [st.selectbox(label, options)]: the widget holds an index into the
    options (0 until the user picks another) and returns the option there,
    [None] when there is none. *)
Definition st_selectbox (label : string) (options : list string) (index : nat)
  : M (option string) :=
  emit (StSelectbox label (map VStr options)) ;;;
  ret (nth_error options index).

(** Tab "Return Book".  [choice] is the index held by the selector and
    [submitted] the state of the form's button. *)
Definition return_book_tab (choice : nat) (submitted : bool) : M unit :=
  emit (StSubheader "Return a Book") ;;;
  transactions <- get_transactions net api 1 100 "borrowed" ;;
  ok <- lift (and_success transactions) ;;
  if ok then
    df_transactions <- lift (d <-- getitem transactions "data" ;; pd_DataFrame d) ;;
    if negb (df_empty df_transactions) then
      options <- lift (transaction_options repr_other df_transactions) ;;
      selected_transaction <-
        st_selectbox "Select Transaction to Return*" options choice ;;
      transaction_id <- lift (parse_transaction_id selected_transaction) ;;
      if submitted then
        if transaction_id =? "" then
          st_error [Lit "Please select a transaction to return"]
        else
          result <- return_book net api transaction_id ;;
          ok' <- lift (and_success result) ;;
          if ok' then
            st_markdown (div_html "success-message" "✅ Book returned successfully!") ;;;
            fine <- lift (get1 result "fine") ;;
            (if truthy fine then
               f <- lift (getitem result "fine") ;;
               emit (StWarning [Fmt f])
             else ret tt) ;;;
            time_sleep 3 ;;;
            st_rerun
          else ret tt
      else ret tt
    else emit (StSuccess [Lit "🎉 No borrowed books found - all books are returned!"])
  else ret tt.

(** Tab "View Transactions".  [filter_index] is the index held by the
    status selector. *)
Definition view_transactions_tab (filter_index : nat) : M unit :=
  emit (StSubheader "All Transactions") ;;;
  status_filter <-
    st_selectbox "Filter by Status" [""; "borrowed"; "returned"; "overdue"]
      filter_index ;;
  let status := match status_filter with
                | Some s => if negb (s =? "") then s else ""
                | None => ""
                end in
  transactions <- get_transactions net api 1 100 status ;;
  ok <- lift (and_success transactions) ;;
  if ok then
    df_transactions <- lift (d <-- getitem transactions "data" ;; pd_DataFrame d) ;;
    if negb (df_empty df_transactions) then
      display <- lift (transactions_display df_transactions) ;;
      emit (StDataframe display)
    else ret tt
  else ret tt.

(** Tab "Overdue Books" *)
Definition overdue_tab : M unit :=
  emit (StSubheader "Overdue Books") ;;;
  overdue <- get_overdue_transactions net api ;;
  ok <- lift (and_success overdue) ;;
  if ok then
    df_overdue <- lift (d <-- getitem overdue "data" ;; pd_DataFrame d) ;;
    if negb (df_empty df_overdue) then
      emit (StWarning [Lit "🚨 There are ";
                       Fmt (VInt (Z.of_nat (List.length (rows df_overdue))));
                       Lit " overdue books!"]) ;;;
      display <- lift (overdue_display df_overdue) ;;
      emit (StDataframe display)
    else emit (StSuccess [Lit "🎉 No overdue books!"])
  else ret tt.

End TransactionTabs.

(* ================================================================== *)
(** ** Sample services and inputs *)

(** A service that answers every request with status 200 and an envelope
    whose [success] flag is false. *)
Definition rejected_body : value :=
  VDict [("success", VBool false); ("error", VStr "Book not found")].

Definition net_rejecting : trace -> request -> outcome :=
  fun _ _ => Responds (mkResponse 200 (Some rejected_body) "rejected").

(** A service that answers every request with status 404 and an error
    body. *)
Definition net_not_found : trace -> request -> outcome :=
  fun _ _ =>
    Responds (mkResponse 404 (Some (VDict [("error", VStr "Not found")])) "not found").


(** A service that accepts every write. *)
Definition net_accepting : trace -> request -> outcome :=
  fun _ _ =>
    Responds (mkResponse 200 (Some (VDict [("success", VBool true)])) "ok").

Definition sample_book : AddBookForm :=
  mkAddBookForm "Dune" "Frank Herbert" "Fiction" "" 3 1965 "" true.

Definition sample_book_untitled : AddBookForm :=
  mkAddBookForm "" "Frank Herbert" "Fiction" "" 3 1965 "" true.

Definition sample_user : AddUserForm :=
  mkAddUserForm "Asha" "asha@epcet.ac.in" "student" "" true.

(** A borrowed-book row as the return form receives it. *)
Definition sample_loan : record :=
  [("transactionId", VStr "TXN-1001");
   ("bookId", VDict [("title", VStr "Dune")]);
   ("userId", VDict [("name", VStr "Asha")]);
   ("dueDate", VStr "2024-05-01")].

(** The same row under an id that ends in a blank and a hyphen. *)
Definition sample_loan_dangling : record :=
  [("transactionId", VStr "T -");
   ("bookId", VDict [("title", VStr "Dune")]);
   ("userId", VDict [("name", VStr "Asha")]);
   ("dueDate", VStr "2024-05-01")].

(** A transaction whose book and user are not populated: both references
    are bare id strings. *)
Definition sample_plain_loan : record :=
  [("transactionId", VStr "TXN-1002");
   ("status", VStr "borrowed");
   ("borrowDate", VStr "2024-04-20");
   ("bookId", VStr "66b1f0");
   ("userId", VStr "66a2c4");
   ("dueDate", VStr "2024-05-04")].

(** A transaction with populated references. *)
Definition sample_full_loan : record :=
  [("transactionId", VStr "TXN-1001");
   ("status", VStr "borrowed");
   ("borrowDate", VStr "2024-04-17");
   ("bookId", VDict [("title", VStr "Dune")]);
   ("userId", VDict [("name", VStr "Asha")]);
   ("dueDate", VStr "2024-05-01")].

(** A most-borrowed payload whose [count] is text, next to a numeric
    [total]. *)
Definition text_count_payload : list record :=
  [[("title", VStr "Dune"); ("count", VStr "3"); ("total", VInt 3)]].

(** A most-borrowed payload that names its count [borrows]. *)
Definition renamed_count_payload : list record :=
  [[("title", VStr "Dune"); ("borrows", VInt 7)];
   [("title", VStr "Emma"); ("borrows", VInt 4)]].

(** A small catalogue: one title is fully lent out. *)
Definition sample_catalogue : list record :=
  [[("_id", VStr "b1"); ("title", VStr "Dune"); ("author", VStr "Herbert");
    ("availableCopies", VInt 2)];
   [("_id", VStr "b2"); ("title", VStr "Emma"); ("author", VStr "Austen");
    ("availableCopies", VInt 0)];
   [("_id", VStr "b3"); ("title", VStr "Ulysses"); ("author", VStr "Joyce");
    ("availableCopies", VInt 1)]].

Definition sample_members : list record :=
  [[("_id", VStr "u1"); ("name", VStr "Asha"); ("userType", VStr "student")]].

(** A service that is up: the health probe reports OK, every other call
    is answered with a rejecting envelope. *)
Definition net_healthy : trace -> request -> outcome :=
  fun _ r =>
    if req_url r =? API_BASE +++ "/health"
    then Responds (mkResponse 200 (Some (VDict [("status", VStr "OK")])) "ok")
    else Responds (mkResponse 200 (Some rejected_body) "rejected").

(** A service that answers a write with 201 Created. *)
Definition net_created : trace -> request -> outcome :=
  fun _ _ =>
    Responds (mkResponse 201 (Some (VDict [("success", VBool true)])) "created").

(** A gateway that answers with an HTML error page. *)
Definition net_bad_gateway : trace -> request -> outcome :=
  fun _ _ => Responds (mkResponse 502 None "<html>Bad Gateway</html>").

(** [m], run after [t], returns without raising and issues exactly the
    request [req]. *)
Definition sends {A : Type} (m : M A) (t : trace) (req : request) : Prop :=
  exists v t', m t = (Ok v, t') /\ requests_of t' = requests_of t ++ [req].

(** The query string of the list operations. *)
Definition page_query (page limit : Z) : string :=
  "?page=" +++ str_int page +++ "&limit=" +++ str_int limit.

(** A transport that lets no request through: the read times out. *)
Definition net_timing_out : trace -> request -> outcome :=
  fun _ _ => Fails (TReadTimeout "Read timed out. (read timeout=10)").

(** A service whose health probe answers with a JSON array. *)
Definition net_array_health : trace -> request -> outcome :=
  fun _ _ => Responds (mkResponse 200 (Some (VList [VStr "up"])) "up").

(** The title drawn at the top of the dashboard. *)
Definition brand_html : string :=
  div_html "epcet-brand" "🏛️ EPCET LIBRARY MANAGEMENT SYSTEM".

(* ================================================================== *)
(** ** Transactions as the tables expect them *)

(** The field [c] of [r] is a string; is a string or absent. *)
Definition is_text_field (c : string) (r : record) : bool :=
  match assoc c r with Some (VStr _) => true | _ => false end.

Definition is_optional_text_field (c : string) (r : record) : bool :=
  match assoc c r with Some (VStr _) | None => true | Some _ => false end.

(** The field [c] of [r] refers to a book or a user: it is a bare id
    string, or a populated object whose [name] field is a string. *)
Definition is_reference (c name : string) (r : record) : bool :=
  match assoc c r with
  | Some (VStr _) => true
  | Some (VDict d) => is_text_field name d
  | _ => false
  end.

(** A transaction record of the API contract: the id, the status and the
    borrow date are strings, the due and return dates are strings where
    present, and the book and user references are bare ids or populated
    objects with a title / a name.  pandas converts no cell of a page of
    such records. *)
Definition transaction_record (r : record) : bool :=
  is_text_field "transactionId" r
  && is_text_field "status" r
  && is_text_field "borrowDate" r
  && is_optional_text_field "dueDate" r
  && is_optional_text_field "returnDate" r
  && is_reference "bookId" "title" r
  && is_reference "userId" "name" r.

Definition is_transaction (r : record) : Prop := transaction_record r = true.

(** What the tables need of a row to draw it: the id, the status and the
    borrow date are there, and a reference that is an object carries its
    title / its name. *)
Definition has_table_fields (r : record) : Prop :=
  has_key "transactionId" r = true /\
  has_key "status" r = true /\
  has_key "borrowDate" r = true /\
  (exists b, assoc "bookId" r = Some b /\
             forall d, b = VDict d -> has_key "title" d = true) /\
  (exists u, assoc "userId" r = Some u /\
             forall d, u = VDict d -> has_key "name" d = true).

(** The top-level integers of a payload lie in the range of [int64]. *)
Definition int64_payload (payload : list record) : bool :=
  forallb (fun r => forallb (fun kv => in_int64 (snd kv)) r) payload.

(** The title shown for a book reference, the name shown for a user
    reference. *)
Definition shown_title (b : value) : value :=
  match b with
  | VDict d => match assoc "title" d with Some t => t | None => VNaN end
  | _ => VStr "Unknown"
  end.

Definition shown_name (u : value) : value :=
  match u with
  | VDict d => match assoc "name" d with Some n => n | None => VNaN end
  | _ => VStr "Unknown"
  end.

(** The line of the transactions table for a row. *)
Definition shown_transaction (row : record) : record :=
  [("Transaction ID", row_get row "transactionId" VNaN);
   ("Book", shown_title (row_get row "bookId" VNaN));
   ("User", shown_name (row_get row "userId" VNaN));
   ("Status", row_get row "status" VNaN);
   ("Borrow Date", row_get row "borrowDate" VNaN);
   ("Due Date", row_get row "dueDate" (VStr ""));
   ("Return Date", row_get row "returnDate" (VStr ""))].

Definition transactions_table_columns : list string :=
  ["Transaction ID"; "Book"; "User"; "Status"; "Borrow Date"; "Due Date";
   "Return Date"].

(** What a record contributes to an optional column of the frame: its
    own value, NaN when only other records have the field, and the
    default of [row.get] when no record has it. *)
Definition optional_cell (c : string) (default : value) (records : list record)
    (r : record) : value :=
  match assoc c r with
  | Some v => v
  | None => if existsb (has_key c) records then VNaN else default
  end.

(** A page of transactions, one returned and one still out. *)
Definition sample_history : list record :=
  [[("transactionId", VStr "TXN-1000");
    ("status", VStr "returned");
    ("borrowDate", VStr "2024-03-01");
    ("bookId", VDict [("title", VStr "Emma")]);
    ("userId", VDict [("name", VStr "Ravi")]);
    ("dueDate", VStr "2024-03-15");
    ("returnDate", VStr "2024-03-10")];
   sample_full_loan].

(** A loan whose book is populated and whose user is a bare id. *)
Definition sample_half_loan : record :=
  [("transactionId", VStr "TXN-1003");
   ("status", VStr "borrowed");
   ("borrowDate", VStr "2024-04-22");
   ("bookId", VDict [("title", VStr "Emma")]);
   ("userId", VStr "66a2c4");
   ("dueDate", VStr "2024-05-06")].

(** Most-borrowed payloads with a count beyond 64 bits. *)
Definition oversized_count_payload : list record :=
  [[("title", VStr "Dune"); ("label", VStr "x"); ("big", VInt (2 ^ 64))]].

Definition oversized_only_payload : list record :=
  [[("big", VInt (2 ^ 64))]].

(** A health body that reports OK inside a rejecting envelope. *)
Definition ok_but_rejected : list (string * value) :=
  [("success", VBool false); ("status", VStr "OK")].

Definition net_ok_but_rejected : trace -> request -> outcome :=
  fun _ _ => Responds (mkResponse 200 (Some (VDict ok_but_rejected)) "ok").

(** A catalogue payload whose records carry no copy count. *)
Definition sample_titles_only : list record :=
  [[("title", VStr "Dune"); ("author", VStr "Herbert")]].

(** A service with one outstanding loan, which accepts its return. *)
Definition net_one_loan : trace -> request -> outcome :=
  fun _ r =>
    if req_method r =? "GET"
    then Responds (mkResponse 200
                     (Some (VDict [("success", VBool true);
                                   ("data", VList [VDict sample_full_loan])]))
                     "loans")
    else Responds (mkResponse 200 (Some (VDict [("success", VBool true)])) "ok").

(** A service with no outstanding loan. *)
Definition net_no_loans : trace -> request -> outcome :=
  fun _ _ =>
    Responds (mkResponse 200
                (Some (VDict [("success", VBool true); ("data", VList [])]))
                "none").

(** The request of the return tab for the outstanding loans. *)
Definition get_borrowed : request :=
  mkRequest "GET" (API_BASE +++ "/transactions?page=1&limit=100&status=borrowed")
    None 10.

(** The request that returns the loan [id]. *)
Definition post_return (id : string) : request :=
  mkRequest "POST" (API_BASE +++ "/transactions/return")
    (Some (VDict [("transactionId", VStr id)])) 10.

(* ================================================================== *)
(** * Properties *)

(** ** The API client *)

Ltac run_monad :=
  unfold _make_request, try_except, make_request_body, make_request_handler,
    requests_get, requests_post, requests_put, requests_delete, requests_call,
    read_response, response_json, st_error, print, emit, bind, ret, raise, lift.

Lemma app_two {A} (t : list A) (a b : A) : (t ++ [a]) ++ [b] = t ++ [a; b].
Proof. now rewrite <- app_assoc. Qed.

Lemma app_three {A} (t : list A) (a b c : A) :
  ((t ++ [a]) ++ [b]) ++ [c] = t ++ [a; b; c].
Proof. now rewrite <- !app_assoc. Qed.

Lemma after_response net self endpoint method data t req resp :
  request_for self endpoint method data = Some req ->
  net t req = Responds resp ->
  _make_request net self endpoint method data t =
    (Ok (fst (response_result resp)), t ++ Http req :: snd (response_result resp)).
Proof.
  unfold request_for, response_result. intros Hreq Hnet. run_monad.
  destruct (method =? "GET");
    [| destruct (method =? "POST");
       [| destruct (method =? "PUT");
          [| destruct (method =? "DELETE"); [| discriminate]]]];
    injection Hreq as <-; rewrite Hnet; cbn;
    (destruct (status_code resp =? 200)%Z; cbn;
     destruct (resp_json resp) as [body|]; cbn;
     try destruct body; cbn; rewrite ?app_three; reflexivity).
Qed.

Lemma after_failure net self endpoint method data t req f :
  request_for self endpoint method data = Some req ->
  net t req = Fails f ->
  _make_request net self endpoint method data t =
    (Ok VNone, t ++ Http req :: failure_events (exn_of_failure f)).
Proof.
  unfold request_for, failure_events. intros Hreq Hnet. run_monad.
  destruct (method =? "GET");
    [| destruct (method =? "POST");
       [| destruct (method =? "PUT");
          [| destruct (method =? "DELETE"); [| discriminate]]]];
    injection Hreq as <-; rewrite Hnet; cbn;
    destruct f; cbn; rewrite <- ?app_assoc; reflexivity.
Qed.

Lemma after_unbound net self endpoint method data t :
  request_for self endpoint method data = None ->
  _make_request net self endpoint method data t =
    (Ok VNone, t ++ failure_events (UnboundLocalError "response")).
Proof.
  unfold request_for. intros Hreq. run_monad.
  destruct (method =? "GET"); [discriminate|].
  destruct (method =? "POST"); [discriminate|].
  destruct (method =? "PUT"); [discriminate|].
  destruct (method =? "DELETE"); [discriminate|].
  cbn. now rewrite app_two.
Qed.

(** One call of [_make_request] does what [make_request_result] says. *)
Lemma make_request_eq net self endpoint method data t :
  _make_request net self endpoint method data t =
  make_request_result net self endpoint method data t.
Proof.
  unfold make_request_result.
  destruct (request_for self endpoint method data) as [req|] eqn:Hreq.
  - destruct (net t req) as [resp|f] eqn:Hnet.
    + now apply after_response.
    + now apply after_failure.
  - now apply after_unbound.
Qed.

Lemma requests_of_app t1 t2 : requests_of (t1 ++ t2) = requests_of t1 ++ requests_of t2.
Proof.
  induction t1 as [|e t1 IH]; [reflexivity|].
  destruct e; cbn; rewrite IH; reflexivity.
Qed.

Lemma errors_of_app t1 t2 : errors_of (t1 ++ t2) = errors_of t1 ++ errors_of t2.
Proof.
  induction t1 as [|e t1 IH]; [reflexivity|].
  destruct e; cbn; rewrite IH; reflexivity.
Qed.

Lemma failure_events_no_request e : requests_of (failure_events e) = [].
Proof.
  unfold failure_events.
  destruct (isinstance_ConnectionError e), (isinstance_Timeout e); reflexivity.
Qed.

Lemma response_result_no_request resp : requests_of (snd (response_result resp)) = [].
Proof.
  unfold response_result.
  destruct (status_code resp =? 200)%Z, (resp_json resp) as [body|]; cbn;
    try reflexivity; try destruct body; reflexivity.
Qed.

(** A call never raises, and issues one request when it knows the method
    and none otherwise. *)
Lemma make_request_requests net self endpoint method data t :
  exists v t',
    _make_request net self endpoint method data t = (Ok v, t') /\
    requests_of t' =
      requests_of t ++
      match request_for self endpoint method data with
      | Some req => [req]
      | None => []
      end.
Proof.
  rewrite make_request_eq. unfold make_request_result.
  destruct (request_for self endpoint method data) as [req|].
  - destruct (net t req) as [resp|f]; eexists; eexists; (split; [reflexivity|]);
      rewrite requests_of_app; cbn;
      rewrite ?response_result_no_request, ?failure_events_no_request; reflexivity.
  - eexists; eexists; split; [reflexivity|].
    now rewrite requests_of_app.
Qed.

(** C9.  [_make_request] is total at its boundary: whatever the endpoint,
    the method string, the behaviour of the transport and the response, it
    returns a value and raises nothing.  The value is [None] when the
    method is none of GET/POST/PUT/DELETE (the local [response] is then
    unbound), when the request fails, and when the body is not valid JSON;
    otherwise it is the parsed body on status 200 and [None] on any other
    status. *)
Theorem make_request_total net self endpoint method data t :
  exists v t',
    _make_request net self endpoint method data t = (Ok v, t') /\
    match request_for self endpoint method data with
    | None => v = VNone
    | Some req =>
        match net t req with
        | Fails _ => v = VNone
        | Responds resp =>
            match resp_json resp with
            | None => v = VNone
            | Some body => v = if (status_code resp =? 200)%Z then body else VNone
            end
        end
    end.
Proof.
  rewrite make_request_eq. unfold make_request_result.
  destruct (request_for self endpoint method data) as [req|].
  - destruct (net t req) as [resp|f].
    + eexists; eexists; split; [reflexivity|].
      unfold response_result.
      destruct (status_code resp =? 200)%Z, (resp_json resp) as [body|]; cbn;
        try reflexivity.
      destruct (get_method body "error" (VStr "Unknown error")); reflexivity.
    + eexists; eexists; split; reflexivity.
  - eexists; eexists; split; reflexivity.
Qed.

(** An unknown method: no request is sent, the unbound local is reported
    by the last [except] clause. *)
Example unknown_method_gives_none :
  _make_request net_accepting api "/books" "PATCH" None [] =
    (Ok VNone,
     [StError [Lit "Error: "; FmtExn (UnboundLocalError "response")];
      ConsolePrint [Lit "Detailed error: "; FmtExn (UnboundLocalError "response")]]).
Proof. reflexivity. Qed.

(** A non-2xx response whose body is not JSON: parsing the body for its
    error message raises, and the last [except] clause reports that. *)
Example html_error_page_gives_none :
  _make_request net_bad_gateway api "/books" "GET" None [] =
    (Ok VNone,
     [Http (mkRequest "GET" (API_BASE +++ "/books") None 10);
      StError [Lit "Error: "; FmtExn (JSONDecodeError "Expecting value")];
      ConsolePrint [Lit "Detailed error: "; FmtExn (JSONDecodeError "Expecting value")]]).
Proof. reflexivity. Qed.

(** Only status 200 counts as success: a 201 takes the error branch. *)
Example created_takes_error_branch :
  _make_request net_created api "/books" "POST" (Some (VDict [])) [] =
    (Ok VNone,
     [Http (mkRequest "POST" (API_BASE +++ "/books") (Some (VDict [])) 10);
      StError (api_error_banner 201 (VStr "Unknown error"));
      ConsolePrint [Lit "Full error response: "; Lit "created"]]).
Proof. reflexivity. Qed.

(** C8.  For a response whose status is not 2xx the client returns [None],
    shows exactly one error banner and raises nothing.  The banner is
    "API Error (status): " followed by the body's [error] field when the
    body is an object that has one and by "Unknown error" when it has
    none; when the body is not an object, or not JSON at all, the banner
    is the generic "Error: ..." of the last [except] clause. *)
Theorem non_2xx_returns_none net self endpoint method data t req resp :
  request_for self endpoint method data = Some req ->
  net t req = Responds resp ->
  ~ (200 <= status_code resp < 300)%Z ->
  exists banner rest,
    _make_request net self endpoint method data t =
      (Ok VNone, t ++ Http req :: StError banner :: rest) /\
    errors_of rest = [] /\
    match resp_json resp with
    | Some (VDict d) =>
        banner = api_error_banner (status_code resp)
                   match assoc "error" d with
                   | Some e => e
                   | None => VStr "Unknown error"
                   end
    | _ => exists e, banner = [Lit "Error: "; FmtExn e]
    end.
Proof.
  intros Hreq Hnet Hstatus.
  rewrite (after_response _ _ _ _ _ _ _ _ Hreq Hnet).
  unfold response_result.
  destruct (status_code resp =? 200)%Z eqn:E; [apply Z.eqb_eq in E; lia|].
  destruct (resp_json resp) as [body|]; cbn.
  - destruct body; cbn; eexists; eexists;
      (split; [reflexivity|]); (split; [reflexivity|]);
      try (eexists; reflexivity); reflexivity.
  - eexists; eexists; split; [reflexivity|]. split; [reflexivity|].
    eexists; reflexivity.
Qed.

Lemma non_2xx_returns_none_witness :
  exists banner rest,
    _make_request net_not_found api "/books/42" "DELETE" None [] =
      (Ok VNone,
       [] ++ Http (mkRequest "DELETE" (API_BASE +++ "/books/42") None 10)
          :: StError banner :: rest) /\
    errors_of rest = [] /\
    banner = api_error_banner 404 (VStr "Not found").
Proof.
  apply (non_2xx_returns_none net_not_found api "/books/42" "DELETE" None []
           (mkRequest "DELETE" (API_BASE +++ "/books/42") None 10)
           (mkResponse 404 (Some (VDict [("error", VStr "Not found")])) "not found")).
  - reflexivity.
  - reflexivity.
  - cbn. lia.
Defined.

(** C1, as stated, fails: on status 200 with [success: false] in the body
    the client returns the parsed body, not [None]. *)
Lemma success_false_body_is_returned :
  fst (run (_make_request net_rejecting api "/books" "POST" (Some (VDict [])))) =
    Ok rejected_body /\
  fst (run (_make_request net_rejecting api "/books" "POST" (Some (VDict [])))) <>
    Ok VNone.
Proof. split; [reflexivity | discriminate]. Qed.

(** C1, amended.  On status 200 [_make_request] does not look at the
    [success] flag: a body that carries [success: false] is returned to
    the caller as parsed, with no banner shown.  The flag is left to the
    call site.  The test [result and result.get('success')] is false for
    such a body, and the add-book and add-user handlers, which apply it,
    then show nothing, issue nothing further and return.
    [check_connection] does not apply it: a health body with status 'OK'
    counts as connected whatever its [success] flag. *)
Theorem status_200_success_false net t resp d :
  status_code resp = 200%Z ->
  resp_json resp = Some (VDict d) ->
  assoc "success" d = Some (VBool false) ->
  (forall self endpoint method data req,
     request_for self endpoint method data = Some req ->
     net t req = Responds resp ->
     _make_request net self endpoint method data t = (Ok (VDict d), t ++ [Http req])) /\
  and_success (VDict d) = Ok false /\
  (forall w,
     ab_submitted w = true ->
     ab_title w <> "" -> ab_author w <> "" -> ab_category w <> "" ->
     net t (post_books w) = Responds resp ->
     add_book_form net w t = (Ok tt, t ++ [Http (post_books w)])) /\
  (forall w,
     au_submitted w = true ->
     au_name w <> "" -> au_email w <> "" -> au_user_type w <> "" ->
     net t (post_users w) = Responds resp ->
     add_user_form net w t = (Ok tt, t ++ [Http (post_users w)])) /\
  (net t (mkRequest "GET" (API_BASE +++ "/health") None 10) = Responds resp ->
   assoc "status" d = Some (VStr "OK") ->
   check_connection net t =
     (Ok true, t ++ [Http (mkRequest "GET" (API_BASE +++ "/health") None 10)])).
Proof.
  intros Hstatus Hjson Hflag.
  assert (Hcall : forall self endpoint method data req,
            request_for self endpoint method data = Some req ->
            net t req = Responds resp ->
            _make_request net self endpoint method data t =
              (Ok (VDict d), t ++ [Http req])).
  { intros self endpoint method data req Hreq Hnet.
    rewrite (after_response _ _ _ _ _ _ _ _ Hreq Hnet).
    unfold response_result. now rewrite Hstatus, Hjson. }
  assert (Hgate : and_success (VDict d) = Ok false).
  { unfold and_success, get1, get_method. rewrite Hflag.
    destruct d; [discriminate|reflexivity]. }
  split; [exact Hcall|]. split; [exact Hgate|]. split; [|split].
  - intros w Hs Ht Ha Hc Hnet. unfold add_book_form. rewrite Hs.
    apply String.eqb_neq in Ht, Ha, Hc. rewrite Ht, Ha, Hc. cbn [negb andb].
    unfold add_book, bind, lift.
    rewrite (Hcall api "/books" "POST" (Some (book_data w)) (post_books w) eq_refl Hnet).
    now rewrite Hgate.
  - intros w Hs Hn He Hu Hnet. unfold add_user_form. rewrite Hs.
    apply String.eqb_neq in Hn, He, Hu. rewrite Hn, He, Hu. cbn [negb andb].
    unfold add_user, bind, lift.
    rewrite (Hcall api "/users" "POST" (Some (user_data w)) (post_users w) eq_refl Hnet).
    now rewrite Hgate.
  - intros Hnet Hok. unfold check_connection, get_health, bind, lift, ret.
    rewrite (Hcall api "/health" "GET" None _ eq_refl Hnet).
    assert (Ht : truthy (VDict d) = true) by (destruct d; [discriminate|reflexivity]).
    rewrite Ht. cbn [get1 get_method]. now rewrite Hok.
Qed.

Lemma status_200_success_false_witness :
  _make_request net_rejecting api "/books" "POST" (Some (VDict [])) [] =
    (Ok rejected_body,
     [] ++ [Http (mkRequest "POST" (API_BASE +++ "/books") (Some (VDict [])) 10)]) /\
  and_success rejected_body = Ok false /\
  add_book_form net_rejecting sample_book [] =
    (Ok tt, [] ++ [Http (post_books sample_book)]) /\
  add_user_form net_rejecting sample_user [] =
    (Ok tt, [] ++ [Http (post_users sample_user)]) /\
  check_connection net_ok_but_rejected [] =
    (Ok true, [] ++ [Http (mkRequest "GET" (API_BASE +++ "/health") None 10)]).
Proof.
  destruct (status_200_success_false net_rejecting []
              (mkResponse 200 (Some rejected_body) "rejected")
              [("success", VBool false); ("error", VStr "Book not found")]
              eq_refl eq_refl eq_refl) as (Hcall & Hgate & Hbook & Huser & _).
  destruct (status_200_success_false net_ok_but_rejected []
              (mkResponse 200 (Some (VDict ok_but_rejected)) "ok")
              ok_but_rejected eq_refl eq_refl eq_refl) as (_ & _ & _ & _ & Hhealth).
  split; [|split; [|split; [|split]]].
  - apply (Hcall api "/books" "POST" (Some (VDict []))); reflexivity.
  - exact Hgate.
  - apply Hbook; (reflexivity || discriminate).
  - apply Huser; (reflexivity || discriminate).
  - apply Hhealth; reflexivity.
Defined.

(** ** The dashboard *)

Lemma get_health_requests net t h t1 :
  get_health net api t = (Ok h, t1) ->
  requests_of t1 = requests_of t ++ [mkRequest "GET" (API_BASE +++ "/health") None 10].
Proof.
  unfold get_health. intros H.
  destruct (make_request_requests net api "/health" "GET" None t) as (v & t' & E & R).
  rewrite E in H. injection H as <- <-. exact R.
Qed.





(** With the probe reporting OK the pass goes on to the analytics call. *)
Example dashboard_goes_on_when_ok :
  requests_of (snd (main_page net_healthy [])) =
    [mkRequest "GET" (API_BASE +++ "/health") None 10;
     mkRequest "GET" (API_BASE +++ "/analytics/dashboard") None 10].
Proof. reflexivity. Qed.

(** ** The add-book and add-user forms *)
Lemma write_then_react net endpoint data (k : bool -> M unit) t req :
  request_for api endpoint "POST" (Some data) = Some req ->
  (forall b t', requests_of (snd (k b t')) = requests_of t') ->
  requests_of
    (snd ((result <- _make_request net api endpoint "POST" (Some data) ;;
           ok <- lift (and_success result) ;;
           k ok) t))
  = requests_of t ++ [req].
Proof.
  intros Hreq Hk.
  destruct (make_request_requests net api endpoint "POST" (Some data) t)
    as (v & t' & E & R).
  rewrite Hreq in R.
  unfold bind, lift. rewrite E.
  destruct (and_success v) as [b|e]; cbn; [rewrite Hk|]; exact R.
Qed.

Lemma celebrate_no_request msg (b : bool) t :
  requests_of
    (snd ((if b then st_markdown msg ;;; time_sleep 2 ;;; st_rerun
           else ret tt : M unit) t))
  = requests_of t.
Proof.
  destruct b; cbn; [|reflexivity].
  rewrite !requests_of_app. cbn. now rewrite !app_nil_r.
Qed.

Lemma add_book_form_requests net w t :
  ab_submitted w = true ->
  ab_title w <> "" -> ab_author w <> "" -> ab_category w <> "" ->
  requests_of (snd (add_book_form net w t)) = requests_of t ++ [post_books w].
Proof.
  intros Hs Ht Ha Hc. unfold add_book_form. rewrite Hs.
  apply String.eqb_neq in Ht, Ha, Hc. rewrite Ht, Ha, Hc. cbn [negb andb].
  unfold add_book.
  apply (write_then_react net "/books" (book_data w)
           (fun ok => if ok then _ else _)); [reflexivity|].
  intros b t'. apply celebrate_no_request.
Qed.

Lemma add_book_form_rejects net w t :
  ab_submitted w = true ->
  ab_title w = "" \/ ab_author w = "" \/ ab_category w = "" ->
  add_book_form net w t = (Ok tt, t ++ [StError required_banner]).
Proof.
  intros Hs H. unfold add_book_form. rewrite Hs.
  destruct H as [-> | [-> | ->]]; cbn;
    rewrite ?andb_false_r; reflexivity.
Qed.

Lemma add_user_form_requests net w t :
  au_submitted w = true ->
  au_name w <> "" -> au_email w <> "" -> au_user_type w <> "" ->
  requests_of (snd (add_user_form net w t)) = requests_of t ++ [post_users w].
Proof.
  intros Hs Hn He Hu. unfold add_user_form. rewrite Hs.
  apply String.eqb_neq in Hn, He, Hu. rewrite Hn, He, Hu. cbn [negb andb].
  unfold add_user.
  apply (write_then_react net "/users" (user_data w)
           (fun ok => if ok then _ else _)); [reflexivity|].
  intros b t'. apply celebrate_no_request.
Qed.

(** C6.  A submitted add-book form whose title, author and category are
    all non-empty issues exactly one request, POST /books, whose payload
    has [availableCopies] equal to the submitted [totalCopies]; when one of
    the three is empty, the handler shows the validation error and issues
    no request. *)
Theorem add_book_one_post net w t :
  ab_submitted w = true ->
  (ab_title w <> "" /\ ab_author w <> "" /\ ab_category w <> "" ->
   requests_of (snd (add_book_form net w t)) =
     requests_of t ++
     [mkRequest "POST" (API_BASE +++ "/books") (Some (book_data w)) 10] /\
   getitem (book_data w) "totalCopies" = Ok (VInt (ab_total_copies w)) /\
   getitem (book_data w) "availableCopies" = Ok (VInt (ab_total_copies w))) /\
  (ab_title w = "" \/ ab_author w = "" \/ ab_category w = "" ->
   add_book_form net w t = (Ok tt, t ++ [StError required_banner]) /\
   requests_of (snd (add_book_form net w t)) = requests_of t).
Proof.
  intros Hs. split.
  - intros (Ht & Ha & Hc). split; [|split; reflexivity].
    now apply add_book_form_requests.
  - intros H. rewrite (add_book_form_rejects net w t Hs H). split; [reflexivity|].
    cbn. rewrite requests_of_app. cbn. now rewrite app_nil_r.
Qed.

Lemma add_book_one_post_witness :
  (requests_of (snd (add_book_form net_accepting sample_book [])) =
     requests_of [] ++
     [mkRequest "POST" (API_BASE +++ "/books") (Some (book_data sample_book)) 10] /\
   getitem (book_data sample_book) "totalCopies" = Ok (VInt 3) /\
   getitem (book_data sample_book) "availableCopies" = Ok (VInt 3)) /\
  (add_book_form net_accepting sample_book_untitled [] =
     (Ok tt, [] ++ [StError required_banner]) /\
   requests_of (snd (add_book_form net_accepting sample_book_untitled [])) =
     requests_of []).
Proof.
  split.
  - apply (add_book_one_post net_accepting sample_book [] eq_refl).
    repeat split; discriminate.
  - apply (add_book_one_post net_accepting sample_book_untitled [] eq_refl).
    left. reflexivity.
Defined.

(** C10.  In the payload the add-book form posts, an ISBN or description
    left empty is [null] and never the empty string, and one that was
    entered is sent as entered; title, author and category go through
    unchanged.  The same holds for the department of the add-user form,
    with name, e-mail and user type unchanged. *)
Theorem empty_optional_fields_are_null net :
  (forall w t,
     ab_submitted w = true ->
     ab_title w <> "" -> ab_author w <> "" -> ab_category w <> "" ->
     exists d,
       requests_of (snd (add_book_form net w t)) =
         requests_of t ++
         [mkRequest "POST" (API_BASE +++ "/books") (Some (VDict d)) 10] /\
       assoc "isbn" d =
         Some (if ab_isbn w =? "" then VNone else VStr (ab_isbn w)) /\
       assoc "description" d =
         Some (if ab_description w =? "" then VNone else VStr (ab_description w)) /\
       assoc "isbn" d <> Some (VStr "") /\
       assoc "description" d <> Some (VStr "") /\
       assoc "title" d = Some (VStr (ab_title w)) /\
       assoc "author" d = Some (VStr (ab_author w)) /\
       assoc "category" d = Some (VStr (ab_category w))) /\
  (forall w t,
     au_submitted w = true ->
     au_name w <> "" -> au_email w <> "" -> au_user_type w <> "" ->
     exists d,
       requests_of (snd (add_user_form net w t)) =
         requests_of t ++
         [mkRequest "POST" (API_BASE +++ "/users") (Some (VDict d)) 10] /\
       assoc "department" d =
         Some (if au_department w =? "" then VNone else VStr (au_department w)) /\
       assoc "department" d <> Some (VStr "") /\
       assoc "name" d = Some (VStr (au_name w)) /\
       assoc "email" d = Some (VStr (au_email w)) /\
       assoc "userType" d = Some (VStr (au_user_type w))).
Proof.
  split; intros w t Hs H1 H2 H3.
  - eexists. split; [apply (add_book_form_requests net w t Hs H1 H2 H3)|].
    cbn. unfold str_or_none.
    destruct (ab_isbn w =? "") eqn:Ei, (ab_description w =? "") eqn:Ed; cbn;
      repeat split; try reflexivity; try discriminate;
      intros [= E]; rewrite E in *; discriminate.
  - eexists. split; [apply (add_user_form_requests net w t Hs H1 H2 H3)|].
    cbn. unfold str_or_none.
    destruct (au_department w =? "") eqn:Ed; cbn;
      repeat split; try reflexivity; try discriminate;
      intros [= E]; rewrite E in *; discriminate.
Qed.

Lemma empty_optional_fields_are_null_witness :
  (exists d,
     requests_of (snd (add_book_form net_accepting sample_book [])) =
       requests_of [] ++
       [mkRequest "POST" (API_BASE +++ "/books") (Some (VDict d)) 10] /\
     assoc "isbn" d = Some VNone /\
     assoc "description" d = Some VNone) /\
  (exists d,
     requests_of (snd (add_user_form net_accepting sample_user [])) =
       requests_of [] ++
       [mkRequest "POST" (API_BASE +++ "/users") (Some (VDict d)) 10] /\
     assoc "department" d = Some VNone).
Proof.
  split.
  - destruct (proj1 (empty_optional_fields_are_null net_accepting) sample_book []
                eq_refl) as (d & R & I & D & _); try discriminate.
    exists d. repeat split; assumption.
  - destruct (proj2 (empty_optional_fields_are_null net_accepting) sample_user []
                eq_refl) as (d & R & D & _); try discriminate.
    exists d. repeat split; assumption.
Defined.

(** ** The return form: selector entry and id *)

Example split_three_pieces :
  str_split "TXN-7 - Dune (User: Asha - Due: x)" " - " =
    Ok ["TXN-7"; "Dune (User: Asha"; "Due: x)"].
Proof. reflexivity. Qed.

Example split_overlapping_separators :
  str_split "a - - b" " - " = Ok ["a"; "- b"].
Proof. reflexivity. Qed.

Example split_without_separator : str_split "abc" " - " = Ok ["abc"].
Proof. reflexivity. Qed.

Example str_int_samples :
  str_int 0 = "0" /\ str_int 10 = "10" /\ str_int (-5) = "-5".
Proof. repeat split. Qed.

Lemma sappend_nil_r s : s +++ "" = s.
Proof. induction s as [|a s IH]; cbn; [reflexivity | now rewrite IH]. Qed.

Lemma sappend_assoc s1 s2 s3 : (s1 +++ s2) +++ s3 = s1 +++ s2 +++ s3.
Proof. induction s1 as [|a s1 IH]; cbn; [reflexivity | now rewrite IH]. Qed.

Lemma prefix_append sep rest : String.prefix sep (sep +++ rest) = true.
Proof.
  induction sep as [|a sep IH]; cbn; [now destruct rest|].
  destruct (ascii_dec a a) as [_|N]; [exact IH | now elim N].
Qed.

(** Splitting [id ++ sep ++ rest] when [sep] matches nowhere before the
    end of [id]: the first piece is [id]. *)
Lemma split_go_head sep id : forall rest cur,
  sep <> "" ->
  (forall p s, id = p +++ s -> s <> "" ->
               String.prefix sep (s +++ sep +++ rest) = false) ->
  exists tl, split_go sep (id +++ sep +++ rest) 0 cur = (cur +++ id) :: tl.
Proof.
  induction id as [|a id IH]; intros rest cur Hsep Hno.
  - destruct sep as [|c sep]; [contradiction|].
    change ("" +++ String c sep +++ rest) with (String c (sep +++ rest)).
    cbn [split_go].
    change (String c (sep +++ rest)) with (String c sep +++ rest).
    rewrite prefix_append, sappend_nil_r. eexists; reflexivity.
  - change (String a id +++ sep +++ rest) with (String a (id +++ sep +++ rest)).
    cbn [split_go].
    change (String a (id +++ sep +++ rest)) with (String a id +++ sep +++ rest).
    rewrite (Hno "" (String a id) eq_refl) by discriminate.
    destruct (IH rest (cur +++ String a "") Hsep) as (tl & E).
    + intros p s -> Hs. apply (Hno (String a p) s eq_refl Hs).
    + exists tl. rewrite E, sappend_assoc. reflexivity.
Qed.

Lemma contains_suffix sep p : forall s,
  str_contains sep (p +++ s) = false -> String.prefix sep s = false.
Proof.
  induction p as [|a p IH]; intros s H.
  - destruct s; cbn [append str_contains] in H; apply orb_false_iff in H; apply H.
  - cbn [append str_contains] in H. apply orb_false_iff in H. apply IH, H.
Qed.

Lemma endswith_suffix suffix p : forall s,
  str_endswith (p +++ s) suffix = false -> s <> suffix.
Proof.
  induction p as [|a p IH]; intros s H.
  - destruct s; cbn [append str_endswith] in H; apply orb_false_iff in H;
      destruct H as [H _]; now apply String.eqb_neq in H.
  - cbn [append str_endswith] in H. apply orb_false_iff in H. apply IH, H.
Qed.

Lemma prefix_cons a s1 b s2 :
  String.prefix (String a s1) (String b s2) =
  if ascii_dec a b then String.prefix s1 s2 else false.
Proof. reflexivity. Qed.

(** Where " - " can match in [s ++ " - " ++ rest] from the start of a
    non-empty [s]: inside [s], or across its end when [s] is " -". *)
Lemma early_match s rest :
  s <> "" ->
  String.prefix " - " (s +++ " - " +++ rest) = true ->
  String.prefix " - " s = true \/ s = " -".
Proof.
  intros Hs H.
  destruct s as [|a [|b [|c s]]]; [contradiction| | |];
    cbn [append] in H; rewrite !prefix_cons in H.
  - destruct (ascii_dec " " a); [|discriminate].
    destruct (ascii_dec "-" " "); discriminate.
  - destruct (ascii_dec " " a) as [<-|]; [|discriminate].
    destruct (ascii_dec "-" b) as [<-|]; [|discriminate].
    now right.
  - rewrite !prefix_cons.
    destruct (ascii_dec " " a); [|discriminate].
    destruct (ascii_dec "-" b); [|discriminate].
    destruct (ascii_dec " " c); [|discriminate].
    left. now destruct s.
Qed.

Lemma split_recovers_id id rest :
  str_contains " - " id = false ->
  str_endswith id " -" = false ->
  exists tl, str_split (id +++ " - " +++ rest) " - " = Ok (id :: tl).
Proof.
  intros Hc He. unfold str_split. cbn [String.eqb].
  destruct (split_go_head " - " id rest "") as (tl & E); [discriminate| |].
  - intros p s -> Hs.
    destruct (String.prefix " - " (s +++ " - " +++ rest)) eqn:P; [|reflexivity].
    destruct (early_match s rest Hs P) as [Q | ->].
    + now rewrite (contains_suffix _ _ _ Hc) in Q.
    + now elim (endswith_suffix _ _ _ He).
  - exists tl. now rewrite E.
Qed.

(** C2, as stated, fails: an id that ends in " -" does not contain " - ",
    yet together with the separator that follows it the entry has " - "
    one character early, and the id parsed back is cut short. *)
Lemma dangling_hyphen_id_is_cut :
  row_getitem sample_loan_dangling "transactionId" = Ok (VStr "T -") /\
  str_contains " - " "T -" = false /\
  forall repr_other,
    transaction_option repr_other sample_loan_dangling =
      Ok "T - - Dune (User: Asha, Due: 2024-05-01)" /\
    parse_transaction_id (Some "T - - Dune (User: Asha, Due: 2024-05-01)") = Ok "T" /\
    "T" <> "T -".
Proof.
  split; [reflexivity|]. split; [reflexivity|].
  intros repr_other. split; [reflexivity|]. split; [reflexivity|discriminate].
Qed.

(** The entry is built whenever the row has the cells the loop reads. *)
Lemma transaction_option_defined repr_other row tid b u :
  row_getitem row "transactionId" = Ok tid ->
  book_title row = Ok b ->
  user_name row = Ok u ->
  exists opt, transaction_option repr_other row = Ok opt.
Proof.
  intros Ht Hb Hu. unfold transaction_option. rewrite Hb, Hu. cbn.
  rewrite Ht. cbn. eexists; reflexivity.
Qed.

Lemma parse_entry id rest :
  str_contains " - " id = false ->
  str_endswith id " -" = false ->
  parse_transaction_id (Some (id +++ " - " +++ rest)) = Ok id.
Proof.
  intros Hc He. unfold parse_transaction_id.
  destruct (split_recovers_id id rest Hc He) as (tl & E). rewrite E.
  destruct (id +++ " - " +++ rest =? "") eqn:Z; [|reflexivity].
  apply String.eqb_eq in Z. destruct id; discriminate Z.
Qed.

(** C2, amended.  For every transaction row whose id contains no " - "
    and does not end in " -", the entry built for the return selector
    (id, book title, user name and due date in one string) parses back to
    exactly that id. *)
Theorem selector_roundtrip repr_other row id opt :
  row_getitem row "transactionId" = Ok (VStr id) ->
  str_contains " - " id = false ->
  str_endswith id " -" = false ->
  transaction_option repr_other row = Ok opt ->
  parse_transaction_id (Some opt) = Ok id.
Proof.
  intros Ht Hc He Hopt. unfold transaction_option in Hopt.
  destruct (book_title row) as [b|]; [|discriminate].
  destruct (user_name row) as [u|]; [|discriminate].
  unfold rbind in Hopt. rewrite Ht in Hopt.
  assert (E : opt = id +++ " - " +++
                py_str repr_other b +++ " (User: " +++ py_str repr_other u
                +++ ", Due: " +++ py_str repr_other (row_get row "dueDate" (VStr ""))
                +++ ")")
    by (injection Hopt as <-; reflexivity).
  rewrite E. now apply parse_entry.
Qed.

Lemma selector_roundtrip_witness :
  parse_transaction_id (Some "TXN-1001 - Dune (User: Asha, Due: 2024-05-01)") =
    Ok "TXN-1001".
Proof.
  apply (selector_roundtrip (fun _ => "") sample_loan "TXN-1001"
           "TXN-1001 - Dune (User: Asha, Due: 2024-05-01)"); reflexivity.
Defined.

(** ** Transactions whose references are plain strings *)

Lemma unknown_book row s :
  row_getitem row "bookId" = Ok (VStr s) -> book_title row = Ok (VStr "Unknown").
Proof. intros H. unfold book_title. now rewrite H. Qed.

Lemma unknown_user row s :
  row_getitem row "userId" = Ok (VStr s) -> user_name row = Ok (VStr "Unknown").
Proof. intros H. unfold user_name. now rewrite H. Qed.

Lemma has_column_three c :
  c <> "transactionId" -> c <> "status" -> c <> "borrowDate" ->
  existsb (String.eqb c) ["transactionId"; "status"; "borrowDate"] = false.
Proof.
  intros H1 H2 H3. apply String.eqb_neq in H1, H2, H3.
  cbn [existsb]. now rewrite H1, H2, H3.
Qed.

Lemma select_columns_columns df cs d :
  select_columns df cs = Ok d -> columns d = cs.
Proof.
  unfold select_columns. destruct (filter _ cs); [|discriminate].
  now intros [= <-].
Qed.

Lemma has_column_set_column df c s c' :
  has_column c' (set_column df c s) = has_column c' df || (c' =? c).
Proof.
  unfold has_column, set_column. cbn [columns].
  rewrite existsb_app. cbn. now rewrite orb_false_r.
Qed.

Lemma column_has_column df c col : column df c = Ok col -> has_column c df = true.
Proof. unfold column. now destruct (has_column c df). Qed.

(** Recent activity: no Book column when the first [bookId] is not a dict. *)
Lemma recent_activity_no_book df col first d :
  column df "bookId" = Ok col ->
  iloc0 col = Ok first ->
  is_dict first = false ->
  recent_activity_display df = Ok d ->
  has_column "Book" d = false.
Proof.
  intros Hcol Hfirst Hdict. unfold recent_activity_display.
  destruct (select_columns df _) as [display_df|] eqn:Hsel; [|discriminate].
  apply select_columns_columns in Hsel.
  assert (Hthree : has_column "Book" display_df = false)
    by (unfold has_column; rewrite Hsel; reflexivity).
  rewrite (column_has_column _ _ _ Hcol).
  cbn [rbind]. rewrite Hcol. cbn [rbind]. rewrite Hfirst. cbn [rbind].
  rewrite Hdict.
  destruct (has_column "userId" df); [|now intros [= <-]].
  destruct (column df "userId") as [ucol|]; [|discriminate]. cbn [rbind].
  destruct (iloc0 ucol) as [ufirst|]; [|discriminate]. cbn [rbind].
  destruct (is_dict ufirst); [|now intros [= <-]].
  destruct (mapM _ ucol) as [names|]; [|discriminate]. cbn [rbind].
  intros [= <-]. now rewrite has_column_set_column, Hthree.
Qed.

(** Recent activity: no User column when the first [userId] is not a dict. *)
Lemma recent_activity_no_user df col first d :
  column df "userId" = Ok col ->
  iloc0 col = Ok first ->
  is_dict first = false ->
  recent_activity_display df = Ok d ->
  has_column "User" d = false.
Proof.
  intros Hcol Hfirst Hdict. unfold recent_activity_display.
  destruct (select_columns df _) as [display_df|] eqn:Hsel; [|discriminate].
  apply select_columns_columns in Hsel.
  assert (Hthree : has_column "User" display_df = false)
    by (unfold has_column; rewrite Hsel; reflexivity).
  rewrite (column_has_column _ _ _ Hcol).
  cbn [rbind]. rewrite Hcol. cbn [rbind]. rewrite Hfirst. cbn [rbind].
  rewrite Hdict.
  destruct (has_column "bookId" df); [|now intros [= <-]].
  destruct (column df "bookId") as [bcol|]; [|discriminate]. cbn [rbind].
  destruct (iloc0 bcol) as [bfirst|]; [|discriminate]. cbn [rbind].
  destruct (is_dict bfirst); [|now intros [= <-]].
  destruct (mapM _ bcol) as [titles|]; [|discriminate]. cbn [rbind].
  intros [= <-]. now rewrite has_column_set_column, Hthree.
Qed.

(** C5, as stated, fails for the recent-activity table: for a transaction
    whose [bookId] and [userId] are plain strings it shows the three plain
    columns only, with no Book or User column and no "Unknown" anywhere. *)
Lemma recent_activity_has_no_placeholder :
  row_getitem sample_plain_loan "bookId" = Ok (VStr "66b1f0") /\
  row_getitem sample_plain_loan "userId" = Ok (VStr "66a2c4") /\
  recent_activity_display (frame_of_records [sample_plain_loan]) =
    Ok (mkFrame ["transactionId"; "status"; "borrowDate"]
          [[("transactionId", VStr "TXN-1002");
            ("status", VStr "borrowed");
            ("borrowDate", VStr "2024-04-20")]]).
Proof. repeat split. Qed.

(** The same table on a page where a populated transaction comes first and
    a plain one second: [x.get] is applied to the string. *)
Example recent_activity_mixed_rows :
  recent_activity_display (frame_of_records [sample_full_loan; sample_plain_loan]) =
    Raise (AttributeError "get").
Proof. reflexivity. Qed.

(** C5, amended.  For a transaction row whose [bookId] is a plain string,
    the return selector, the transactions table and the overdue table show
    the literal "Unknown" as the book title, and computing it raises
    nothing; likewise for [userId] and the user name.  The recent-activity
    table has no such placeholder: when the [bookId] ([userId]) of its
    first row is not an object, it has no Book (User) column. *)
Theorem plain_reference_renders_unknown repr_other :
  (forall row s tid u,
     row_getitem row "bookId" = Ok (VStr s) ->
     row_getitem row "transactionId" = Ok tid ->
     user_name row = Ok u ->
     book_title row = Ok (VStr "Unknown") /\
     transaction_option repr_other row =
       Ok (py_str repr_other tid +++ " - " +++ "Unknown" +++ " (User: "
           +++ py_str repr_other u +++ ", Due: "
           +++ py_str repr_other (row_get row "dueDate" (VStr "")) +++ ")") /\
     (exists r, overdue_row row = Ok r /\ assoc "Book" r = Some (VStr "Unknown")) /\
     (forall status borrow,
        row_getitem row "status" = Ok status ->
        row_getitem row "borrowDate" = Ok borrow ->
        exists r, transactions_row row = Ok r /\
                  assoc "Book" r = Some (VStr "Unknown"))) /\
  (forall row s tid b,
     row_getitem row "userId" = Ok (VStr s) ->
     row_getitem row "transactionId" = Ok tid ->
     book_title row = Ok b ->
     user_name row = Ok (VStr "Unknown") /\
     transaction_option repr_other row =
       Ok (py_str repr_other tid +++ " - " +++ py_str repr_other b +++ " (User: "
           +++ "Unknown" +++ ", Due: "
           +++ py_str repr_other (row_get row "dueDate" (VStr "")) +++ ")") /\
     (exists r, overdue_row row = Ok r /\ assoc "User" r = Some (VStr "Unknown")) /\
     (forall status borrow,
        row_getitem row "status" = Ok status ->
        row_getitem row "borrowDate" = Ok borrow ->
        exists r, transactions_row row = Ok r /\
                  assoc "User" r = Some (VStr "Unknown"))) /\
  (forall df col first d,
     column df "bookId" = Ok col -> iloc0 col = Ok first -> is_dict first = false ->
     recent_activity_display df = Ok d ->
     has_column "Book" d = false) /\
  (forall df col first d,
     column df "userId" = Ok col -> iloc0 col = Ok first -> is_dict first = false ->
     recent_activity_display df = Ok d ->
     has_column "User" d = false).
Proof.
  split; [|split; [|split]].
  - intros row s tid u Hb Ht Hu.
    pose proof (unknown_book row s Hb) as Hbt.
    split; [exact Hbt|]. split; [|split].
    + unfold transaction_option. rewrite Hbt, Hu. cbn [rbind]. now rewrite Ht.
    + unfold overdue_row. rewrite Ht, Hbt, Hu. cbn [rbind].
      eexists; split; reflexivity.
    + intros status borrow Hs Hd.
      unfold transactions_row. rewrite Ht, Hbt, Hu, Hs, Hd. cbn [rbind].
      eexists; split; reflexivity.
  - intros row s tid b Hu Ht Hb.
    pose proof (unknown_user row s Hu) as Hun.
    split; [exact Hun|]. split; [|split].
    + unfold transaction_option. rewrite Hb, Hun. cbn [rbind]. now rewrite Ht.
    + unfold overdue_row. rewrite Ht, Hb, Hun. cbn [rbind].
      eexists; split; reflexivity.
    + intros status borrow Hs Hd.
      unfold transactions_row. rewrite Ht, Hb, Hun, Hs, Hd. cbn [rbind].
      eexists; split; reflexivity.
  - exact recent_activity_no_book.
  - exact recent_activity_no_user.
Qed.

Lemma plain_reference_renders_unknown_witness :
  (book_title sample_plain_loan = Ok (VStr "Unknown") /\
   transaction_option (fun _ => "") sample_plain_loan =
     Ok "TXN-1002 - Unknown (User: Unknown, Due: 2024-05-04)" /\
   (exists r, overdue_row sample_plain_loan = Ok r /\
              assoc "Book" r = Some (VStr "Unknown")) /\
   (exists r, transactions_row sample_plain_loan = Ok r /\
              assoc "Book" r = Some (VStr "Unknown"))) /\
  has_column "Book"
    (mkFrame ["transactionId"; "status"; "borrowDate"]
       [[("transactionId", VStr "TXN-1002");
         ("status", VStr "borrowed");
         ("borrowDate", VStr "2024-04-20")]]) = false.
Proof.
  destruct (plain_reference_renders_unknown (fun _ => "")) as (HB & _ & HR & _).
  split.
  - destruct (HB sample_plain_loan "66b1f0" (VStr "TXN-1002") (VStr "Unknown")
                eq_refl eq_refl eq_refl) as (H1 & H2 & H3 & H4).
    split; [exact H1|]. split; [exact H2|]. split; [exact H3|].
    exact (H4 (VStr "borrowed") (VStr "2024-04-20") eq_refl eq_refl).
  - apply (HR (frame_of_records [sample_plain_loan]) [VStr "66b1f0"] (VStr "66b1f0"));
      reflexivity.
Defined.

(** ** The plotted column of the most-borrowed chart *)

(** C4, as stated, fails: this payload has no [borrowCount] and exactly
    one numeric column, [total], yet the column chosen is the textual
    [count]. *)
Lemma text_count_is_chosen :
  has_column "borrowCount" (frame_of_records text_count_payload) = false /\
  numeric_columns (frame_of_records text_count_payload) = ["total"] /\
  y_column (frame_of_records text_count_payload) = Ok "count".
Proof. repeat split. Qed.

(** A count beyond 64 bits does not make a numeric column: pandas keeps
    the column as objects, and the fallback passes it over. *)
Example oversized_count_is_not_numeric :
  numeric_columns (frame_of_records oversized_count_payload) = [] /\
  y_column (frame_of_records oversized_count_payload) = Ok "label" /\
  y_column (frame_of_records oversized_only_payload) = Raise IndexError.
Proof. repeat split. Qed.

(** C4, amended.  For every most-borrowed payload whose integers fit 64
    bits, that has no [borrowCount] column and exactly one column of
    numeric dtype, and whose [count] column, if there is one, is that
    numeric column, the fallback chooses that numeric column.  In general
    the choice follows the order [borrowCount], then [count], then the
    first column of numeric dtype. *)
Theorem y_column_preference (payload : list record) :
  int64_payload payload = true ->
  let df := frame_of_records payload in
  (forall c,
     has_column "borrowCount" df = false ->
     numeric_columns df = [c] ->
     (has_column "count" df = true -> c = "count") ->
     y_column df = Ok c) /\
  (has_column "borrowCount" df = true -> y_column df = Ok "borrowCount") /\
  (has_column "borrowCount" df = false -> has_column "count" df = true ->
   y_column df = Ok "count") /\
  (forall c others,
     has_column "borrowCount" df = false -> has_column "count" df = false ->
     numeric_columns df = c :: others ->
     y_column df = Ok c).
Proof.
  intros _ df. unfold y_column. repeat split.
  - intros c Hb Hn Hc. rewrite Hb, Hn.
    destruct (has_column "count" df); [now rewrite Hc | reflexivity].
  - now intros ->.
  - now intros -> ->.
  - intros c others Hb Hc Hn. now rewrite Hb, Hc, Hn.
Qed.

Lemma y_column_preference_witness :
  y_column (frame_of_records renamed_count_payload) = Ok "borrows".
Proof.
  apply (proj1 (y_column_preference renamed_count_payload eq_refl) "borrows");
    [reflexivity | reflexivity | discriminate].
Defined.

(** ** The book selector of the borrow form *)

Lemma mapM_map {A B} (f : A -> result B) (g : A -> B) (l : list A) :
  Forall (fun a => f a = Ok (g a)) l -> mapM f l = Ok (map g l).
Proof.
  induction 1 as [|a l Ha _ IH]; [reflexivity|].
  cbn. now rewrite Ha, IH.
Qed.

Lemma mapM_over_map {A B C} (f : B -> result C) (h : A -> B) (g : A -> C) l :
  (forall a, f (h a) = Ok (g a)) -> mapM f (map h l) = Ok (map g l).
Proof.
  intros H. induction l as [|a l IH]; [reflexivity|].
  cbn. now rewrite H, IH.
Qed.

Lemma mask_rows_filter (f : record -> bool) (rs : list record) :
  mask_rows rs (map f rs) = filter f rs.
Proof.
  induction rs as [|r rs IH]; [reflexivity|].
  cbn. now rewrite IH.
Qed.

Lemma add_keys_keeps c r : forall seen,
  existsb (String.eqb c) seen = true ->
  existsb (String.eqb c) (add_keys seen r) = true.
Proof.
  induction r as [|[k v] r IH]; intros seen H; [exact H|].
  cbn. destruct (existsb (String.eqb k) seen); apply IH; [exact H|].
  rewrite existsb_app, H. reflexivity.
Qed.

Lemma add_keys_adds c v r : forall seen,
  assoc c r = Some v -> existsb (String.eqb c) (add_keys seen r) = true.
Proof.
  induction r as [|[k x] r IH]; intros seen H; [discriminate|].
  cbn in H |- *. destruct (k =? c) eqn:E.
  - apply String.eqb_eq in E. subst k.
    destruct (existsb (String.eqb c) seen) eqn:S.
    + now apply add_keys_keeps.
    + apply add_keys_keeps. rewrite existsb_app. cbn.
      now rewrite String.eqb_refl, orb_true_r.
  - destruct (existsb (String.eqb k) seen); now apply IH.
Qed.

Lemma fold_add_keys_keeps c records : forall seen,
  existsb (String.eqb c) seen = true ->
  existsb (String.eqb c) (fold_left add_keys records seen) = true.
Proof.
  induction records as [|r records IH]; intros seen H; [exact H|].
  cbn. apply IH. now apply add_keys_keeps.
Qed.

(** Every key of a record is a column of the frame. *)
Lemma key_is_column c v r records :
  In r records -> assoc c r = Some v ->
  has_column c (frame_of_records records) = true.
Proof.
  unfold has_column, frame_of_records, frame_columns. cbn [columns].
  generalize (@nil string). induction records as [|r' records IH]; intros seen Hin Hc.
  - destruct Hin.
  - cbn. destruct Hin as [-> | Hin].
    + apply fold_add_keys_keeps. now apply add_keys_adds with v.
    + now apply IH.
Qed.

(** The cell of a column in the filled row is the record's own. *)
Lemma fill_row_assoc c r cols :
  existsb (String.eqb c) cols = true ->
  assoc c (fill_row cols r) =
    Some match assoc c r with Some v => v | None => VNaN end.
Proof.
  induction cols as [|c' cols IH]; [discriminate|].
  cbn. rewrite (String.eqb_sym c c').
  destruct (c' =? c) eqn:E; [|exact IH].
  apply String.eqb_eq in E. now subst c'.
Qed.

Lemma fill_row_book cols r :
  existsb (String.eqb "title") cols = true ->
  existsb (String.eqb "author") cols = true ->
  existsb (String.eqb "availableCopies") cols = true ->
  is_book r ->
  is_book (fill_row cols r) /\
  copies_of (fill_row cols r) = copies_of r /\
  label_of (fill_row cols r) = label_of r.
Proof.
  intros Ht Ha Hc (t & a & n & Et & Ea & En & Hn).
  unfold is_book, copies_of, label_of.
  rewrite (fill_row_assoc _ r _ Ht), (fill_row_assoc _ r _ Ha),
    (fill_row_assoc _ r _ Hc), Et, Ea, En.
  split; [|split; reflexivity].
  exists t, a, n. now repeat split.
Qed.

Lemma book_row_cells r :
  is_book r ->
  exists t a,
    row_getitem r "title" = Ok (VStr t) /\
    row_getitem r "author" = Ok (VStr a) /\
    row_getitem r "availableCopies" = Ok (VInt (copies_of r)) /\
    label_of r = VStr ((t +++ " by ") +++ a) /\
    (0 <= copies_of r)%Z.
Proof.
  intros (t & a & n & Et & Ea & En & Hn). exists t, a.
  unfold row_getitem, copies_of, label_of. rewrite Et, Ea, En. now repeat split.
Qed.

(** The filter of the borrow form on a frame of books. *)
Lemma available_books_filter df :
  has_column "availableCopies" df = true ->
  Forall is_book (rows df) ->
  available_books df =
    Ok (mkFrame (columns df) (filter (fun r => (0 <? copies_of r)%Z) (rows df))).
Proof.
  intros Hc Hrows. unfold available_books, column. rewrite Hc.
  rewrite (mapM_map _ (fun r => VInt (copies_of r))).
  - cbn [rbind]. unfold series_gt0.
    rewrite (mapM_over_map _ _ (fun r => (0 <? copies_of r)%Z)) by reflexivity.
    cbn [rbind]. now rewrite mask_rows_filter.
  - eapply Forall_impl; [|exact Hrows]. intros r Hr.
    destruct (book_row_cells r Hr) as (t & a & _ & _ & E & _). exact E.
Qed.

Lemma strings_not_numeric (l : list record) (f : record -> string) :
  number_dtype (map (fun r => VStr (f r)) l) = false.
Proof.
  unfold number_dtype. apply andb_false_iff. left. apply andb_false_iff. right.
  induction l as [|r l IH]; [reflexivity | exact IH].
Qed.

Lemma series_add_labels (rs : list record) (t a : record -> string) :
  series_add (map (fun r => VStr (t r)) rs) (map (fun r => VStr (a r)) rs) =
  Ok (map (fun r => VStr (t r +++ a r)) rs).
Proof.
  induction rs as [|r rs IH]; [reflexivity|].
  cbn. now rewrite IH.
Qed.

(** The entries of the selector on a frame of books. *)
Lemma book_options_labels df :
  has_column "title" df = true ->
  has_column "author" df = true ->
  Forall is_book (rows df) ->
  book_options df = Ok (map label_of (rows df)).
Proof.
  intros Ht Ha Hrows. unfold book_options, column. rewrite Ht, Ha.
  rewrite (mapM_map _ (fun r => VStr (title_of r))).
  2:{ eapply Forall_impl; [|exact Hrows]. intros r (t & a & n & Et & _).
      unfold row_getitem, title_of. now rewrite Et. }
  cbn [rbind]. unfold series_add_str. rewrite strings_not_numeric.
  rewrite (mapM_over_map _ _ (fun r => VStr (title_of r +++ " by ")))
    by reflexivity.
  cbn [rbind].
  rewrite (mapM_map _ (fun r => VStr (author_of r))).
  2:{ eapply Forall_impl; [|exact Hrows]. intros r (t & a & n & _ & Ea & _).
      unfold row_getitem, author_of. now rewrite Ea. }
  cbn [rbind]. rewrite series_add_labels. f_equal.
  apply map_ext_in. intros r Hr.
  rewrite Forall_forall in Hrows. destruct (Hrows r Hr) as (t & a & n & Et & Ea & _).
  unfold label_of, title_of, author_of. now rewrite Et, Ea.
Qed.

Lemma filter_map_swap {A B} (p : B -> bool) (f : A -> B) (l : list A) :
  filter p (map f l) = map f (filter (fun a => p (f a)) l).
Proof.
  induction l as [|a l IH]; [reflexivity|].
  cbn. destruct (p (f a)); cbn; now rewrite IH.
Qed.

(** The rows of the frame built from books are books, with the counts and
    labels of the records they come from. *)
Lemma frame_of_books books :
  books <> [] ->
  Forall is_book books ->
  let df := frame_of_records books in
  has_column "title" df = true /\
  has_column "author" df = true /\
  has_column "availableCopies" df = true /\
  Forall is_book (rows df) /\
  filter (fun r => (0 <? copies_of r)%Z) (rows df) =
    map (fill_row (columns df)) (filter (fun b => (0 <? copies_of b)%Z) books) /\
  map label_of (filter (fun r => (0 <? copies_of r)%Z) (rows df)) =
    map label_of (filter (fun b => (0 <? copies_of b)%Z) books).
Proof.
  intros Hne Hbooks df.
  destruct books as [|b0 books']; [contradiction|].
  set (books := b0 :: books') in *.
  assert (Hb0 : is_book b0) by now inversion Hbooks.
  destruct Hb0 as (t & a & n & Et & Ea & En & _).
  assert (Ht : has_column "title" df = true)
    by (apply (key_is_column _ (VStr t) b0); [now left | exact Et]).
  assert (Ha : has_column "author" df = true)
    by (apply (key_is_column _ (VStr a) b0); [now left | exact Ea]).
  assert (Hc : has_column "availableCopies" df = true)
    by (apply (key_is_column _ (VInt n) b0); [now left | exact En]).
  assert (Hfill : forall b, In b books ->
            is_book (fill_row (columns df) b) /\
            copies_of (fill_row (columns df) b) = copies_of b /\
            label_of (fill_row (columns df) b) = label_of b).
  { intros b Hb. apply fill_row_book; try assumption.
    rewrite Forall_forall in Hbooks. now apply Hbooks. }
  assert (Hfilter : filter (fun r => (0 <? copies_of r)%Z) (rows df) =
            map (fill_row (columns df))
                (filter (fun b => (0 <? copies_of b)%Z) books)).
  { change (rows df) with (map (fill_row (columns df)) books).
    rewrite filter_map_swap. f_equal. apply filter_ext_in.
    intros b Hb. now rewrite (proj1 (proj2 (Hfill b Hb))). }
  repeat split; try assumption.
  - change (rows df) with (map (fill_row (columns df)) books).
    apply Forall_forall. intros r Hr. apply in_map_iff in Hr.
    destruct Hr as (b & <- & Hb). apply (Hfill b Hb).
  - rewrite Hfilter, map_map. apply map_ext_in. intros b Hb.
    apply filter_In in Hb. apply (Hfill b (proj1 Hb)).
Qed.

Lemma none_left_after_filter (cols : list string) (f : record -> record)
    (p : record -> bool) (books : list record) :
  cols <> [] ->
  match map f (filter p books), cols with
  | [], _ => true
  | _, [] => true
  | _, _ => false
  end = negb (existsb p books).
Proof.
  intros Hcols. induction books as [|b books IH]; [reflexivity|].
  cbn. destruct (p b); cbn; [now destruct cols | exact IH].
Qed.

(** C3.  For every list of books in which some book has no available
    copy, the "Select Book*" selector of the borrow form, when the form is
    drawn, offers one entry per book whose available-copy count is greater
    than zero, in the order of the list, and nothing else: a book is left
    out exactly when its count is zero.  (The form is drawn when some book
    is available and there is at least one user.) *)
Theorem borrow_selector_offers_available (books : list record) (df_users : DataFrame) :
  Forall is_book books ->
  (exists b, In b books /\ copies_of b = 0%Z) ->
  let offered := filter (fun b => (0 <? copies_of b)%Z) books in
  borrow_book_selector (frame_of_records books) df_users =
    Ok (if existsb (fun b => (0 <? copies_of b)%Z) books && negb (df_empty df_users)
        then Some (map label_of offered)
        else None) /\
  forall b, In b books ->
    (In b offered <-> (0 < copies_of b)%Z) /\
    (~ In b offered <-> copies_of b = 0%Z).
Proof.
  intros Hbooks (b0 & Hb0 & _) offered. split.
  - assert (Hne : books <> []) by (intros ->; destruct Hb0).
    destruct (frame_of_books books Hne Hbooks) as (Ht & Ha & Hc & Hrows & Hf & Hl).
    set (df := frame_of_records books) in *.
    unfold borrow_book_selector.
    rewrite (available_books_filter df Hc Hrows). cbn [rbind].
    set (available := mkFrame (columns df) _).
    assert (Hempty : df_empty available =
                     negb (existsb (fun b => (0 <? copies_of b)%Z) books)).
    { unfold df_empty, available. cbn [rows columns]. rewrite Hf.
      apply none_left_after_filter.
      unfold has_column in Ht. intros E. rewrite E in Ht. discriminate. }
    rewrite Hempty, negb_involutive.
    destruct (existsb _ books && negb (df_empty df_users)); [|reflexivity].
    rewrite (book_options_labels available).
    + cbn [rbind]. unfold available. cbn [rows]. now rewrite Hl.
    + exact Ht.
    + exact Ha.
    + unfold available. cbn [rows].
      apply Forall_forall. intros r Hr. apply filter_In in Hr.
      rewrite Forall_forall in Hrows. apply Hrows, Hr.
  - intros b Hb. unfold offered. rewrite filter_In.
    rewrite Forall_forall in Hbooks.
    destruct (book_row_cells b (Hbooks b Hb)) as (t & a & _ & _ & _ & _ & Hn).
    split; split.
    + intros [_ H]. now apply Z.ltb_lt.
    + intros H. split; [exact Hb | now apply Z.ltb_lt].
    + intros H. destruct (Z.eq_dec (copies_of b) 0) as [E|E]; [exact E|].
      elim H. split; [exact Hb | apply Z.ltb_lt; lia].
    + intros E [_ H]. apply Z.ltb_lt in H. lia.
Qed.

Lemma borrow_selector_offers_available_witness :
  borrow_book_selector (frame_of_records sample_catalogue)
                       (frame_of_records sample_members) =
    Ok (Some [VStr "Dune by Herbert"; VStr "Ulysses by Joyce"]).
Proof.
  apply (borrow_selector_offers_available sample_catalogue
           (frame_of_records sample_members)).
  - repeat constructor; unfold is_book; cbn.
    + exists "Dune", "Herbert", 2%Z. repeat split; lia.
    + exists "Emma", "Austen", 0%Z. repeat split; lia.
    + exists "Ulysses", "Joyce", 1%Z. repeat split; lia.
  - exists [("_id", VStr "b2"); ("title", VStr "Emma"); ("author", VStr "Austen");
            ("availableCopies", VInt 0)].
    split; [right; left; reflexivity | reflexivity].
Defined.

(* ================================================================== *)
(** * Further properties of the client *)

(** X1.  When the transport fails, the call returns [None] after its one
    request and shows exactly one banner: the "cannot connect" banner for
    a connection error and for a connect timeout (which [requests] derives
    from both classes, and the connection clause comes first), the timeout
    banner for a read timeout, and "Error: ..." for anything else.  The
    two specific banners differ. *)
Theorem transport_failure_reported net self endpoint method data t req f :
  request_for self endpoint method data = Some req ->
  net t req = Fails f ->
  exists rest,
    _make_request net self endpoint method data t =
      (Ok VNone,
       t ++ Http req
         :: StError match f with
                    | TConnectionError _ | TConnectTimeout _ => connection_banner
                    | TReadTimeout _ => timeout_banner
                    | TOther m => [Lit "Error: "; FmtExn (OtherException m)]
                    end
         :: rest) /\
    errors_of rest = [] /\
    requests_of rest = [] /\
    connection_banner <> timeout_banner.
Proof.
  intros Hreq Hnet. rewrite (after_failure _ _ _ _ _ _ _ _ Hreq Hnet).
  destruct f; cbn; eexists; (split; [reflexivity|]);
    repeat split; discriminate.
Qed.

Lemma transport_failure_reported_witness :
  exists rest,
    _make_request net_timing_out api "/books" "GET" None [] =
      (Ok VNone,
       [] ++ Http (mkRequest "GET" (API_BASE +++ "/books") None 10)
          :: StError timeout_banner :: rest) /\
    errors_of rest = [] /\
    requests_of rest = [] /\
    connection_banner <> timeout_banner.
Proof.
  apply (transport_failure_reported net_timing_out api "/books" "GET" None []
           (mkRequest "GET" (API_BASE +++ "/books") None 10)
           (TReadTimeout "Read timed out. (read timeout=10)")); reflexivity.
Defined.

(** X2.  Only status 200 is a success: for a response with any other
    status, 201 and 204 included, the call returns [None] and shows
    exactly one error banner. *)
Theorem only_200_is_success net self endpoint method data t req resp :
  request_for self endpoint method data = Some req ->
  net t req = Responds resp ->
  status_code resp <> 200%Z ->
  exists banner rest,
    _make_request net self endpoint method data t =
      (Ok VNone, t ++ Http req :: StError banner :: rest) /\
    errors_of rest = [] /\
    requests_of rest = [].
Proof.
  intros Hreq Hnet Hstatus.
  rewrite (after_response _ _ _ _ _ _ _ _ Hreq Hnet).
  unfold response_result.
  destruct (status_code resp =? 200)%Z eqn:E; [now apply Z.eqb_eq in E|].
  destruct (resp_json resp) as [body|]; cbn.
  - destruct body; cbn; eexists; eexists; repeat split.
  - eexists; eexists; repeat split.
Qed.

Lemma only_200_is_success_witness :
  exists banner rest,
    _make_request net_created api "/books" "POST" (Some (VDict [])) [] =
      (Ok VNone,
       [] ++ Http (mkRequest "POST" (API_BASE +++ "/books") (Some (VDict [])) 10)
          :: StError banner :: rest) /\
    errors_of rest = [] /\
    requests_of rest = [].
Proof.
  apply (only_200_is_success net_created api "/books" "POST" (Some (VDict [])) []
           (mkRequest "POST" (API_BASE +++ "/books") (Some (VDict [])) 10)
           (mkResponse 201 (Some (VDict [("success", VBool true)])) "created"));
    [reflexivity | reflexivity | discriminate].
Defined.

(** X3.  No retries: whatever happens, one call issues at most one
    request, and none when the method is not one of the four.  The
    request goes to the base URL followed by the endpoint with a timeout
    of 10 seconds, and carries the payload only for POST and PUT: GET and
    DELETE send no body even when [data] is given. *)
Theorem at_most_one_request net self endpoint method data t :
  exists v t' issued,
    _make_request net self endpoint method data t = (Ok v, t') /\
    requests_of t' = requests_of t ++ issued /\
    (List.length issued <= 1)%nat /\
    (issued = [] <->
     (method =? "GET") || (method =? "POST") || (method =? "PUT")
     || (method =? "DELETE") = false) /\
    Forall (fun r =>
              req_method r = method /\
              req_url r = base_url self +++ endpoint /\
              req_timeout r = 10%Z /\
              req_json r = if (method =? "POST") || (method =? "PUT")
                           then data else None) issued.
Proof.
  destruct (make_request_requests net self endpoint method data t)
    as (v & t' & E & R).
  exists v, t'. eexists. split; [exact E|]. split; [exact R|].
  unfold request_for.
  destruct (method =? "GET") eqn:G.
  { apply String.eqb_eq in G. subst. cbn. repeat split; auto; discriminate. }
  destruct (method =? "POST") eqn:P.
  { apply String.eqb_eq in P. subst. cbn. repeat split; auto; discriminate. }
  destruct (method =? "PUT") eqn:U.
  { apply String.eqb_eq in U. subst. cbn. repeat split; auto; discriminate. }
  destruct (method =? "DELETE") eqn:D.
  { apply String.eqb_eq in D. subst. cbn. repeat split; auto; discriminate. }
  cbn. repeat split; auto.
Qed.

Lemma call_sends net self endpoint method data t req :
  request_for self endpoint method data = Some req ->
  sends (_make_request net self endpoint method data) t req.
Proof.
  intros Hreq.
  destruct (make_request_requests net self endpoint method data t)
    as (v & t' & E & R).
  rewrite Hreq in R. now exists v, t'.
Qed.

(** X4.  Every operation of [LibraryAPI] returns without raising and
    issues exactly one request, with the verb, path and body of the
    service's interface: the reads are GETs without a body, a filter that
    is left empty adds no parameter to the query, and of the writes only
    DELETE carries no body. *)
Theorem operations_issue_one_request net t :
  sends (get_health net api) t (mkRequest "GET" (API_BASE +++ "/health") None 10) /\
  (forall page limit search category,
     sends (get_books net api page limit search category) t
       (mkRequest "GET"
          (API_BASE +++ "/books" +++ page_query page limit
           +++ (if search =? "" then "" else "&search=" +++ search)
           +++ (if category =? "" then "" else "&category=" +++ category))
          None 10)) /\
  sends (get_book_categories net api) t
    (mkRequest "GET" (API_BASE +++ "/books/categories") None 10) /\
  (forall data,
     sends (add_book net api data) t
       (mkRequest "POST" (API_BASE +++ "/books") (Some data) 10)) /\
  (forall id data,
     sends (update_book net api id data) t
       (mkRequest "PUT" (API_BASE +++ "/books/" +++ id) (Some data) 10)) /\
  (forall id,
     sends (delete_book net api id) t
       (mkRequest "DELETE" (API_BASE +++ "/books/" +++ id) None 10)) /\
  (forall page limit user_type,
     sends (get_users net api page limit user_type) t
       (mkRequest "GET"
          (API_BASE +++ "/users" +++ page_query page limit
           +++ (if user_type =? "" then "" else "&userType=" +++ user_type))
          None 10)) /\
  sends (get_user_types net api) t
    (mkRequest "GET" (API_BASE +++ "/users/types") None 10) /\
  (forall data,
     sends (add_user net api data) t
       (mkRequest "POST" (API_BASE +++ "/users") (Some data) 10)) /\
  (forall book_id user_id days,
     sends (borrow_book net api book_id user_id days) t
       (mkRequest "POST" (API_BASE +++ "/transactions/borrow")
          (Some (VDict [("bookId", book_id); ("userId", user_id);
                        ("days", VInt days)])) 10)) /\
  (forall id,
     sends (return_book net api id) t
       (mkRequest "POST" (API_BASE +++ "/transactions/return")
          (Some (VDict [("transactionId", VStr id)])) 10)) /\
  (forall page limit status,
     sends (get_transactions net api page limit status) t
       (mkRequest "GET"
          (API_BASE +++ "/transactions" +++ page_query page limit
           +++ (if status =? "" then "" else "&status=" +++ status))
          None 10)) /\
  sends (get_overdue_transactions net api) t
    (mkRequest "GET" (API_BASE +++ "/transactions/overdue") None 10) /\
  sends (get_dashboard_stats net api) t
    (mkRequest "GET" (API_BASE +++ "/analytics/dashboard") None 10) /\
  (forall limit period,
     sends (get_most_borrowed net api limit period) t
       (mkRequest "GET"
          (API_BASE +++ "/analytics/most-borrowed?limit=" +++ str_int limit
           +++ "&period=" +++ period) None 10)) /\
  sends (get_user_categories net api) t
    (mkRequest "GET" (API_BASE +++ "/analytics/user-categories") None 10) /\
  sends (get_reading_patterns net api) t
    (mkRequest "GET" (API_BASE +++ "/analytics/reading-patterns") None 10) /\
  (forall year,
     sends (get_monthly_report net api year) t
       (mkRequest "GET"
          (API_BASE +++ "/analytics/monthly-report?year=" +++ str_int year)
          None 10)).
Proof.
  repeat split; intros; apply call_sends; unfold request_for, page_query;
    cbn [get_health get_books get_users get_transactions String.eqb Ascii.eqb
         Bool.eqb base_url api];
    try reflexivity.
  - destruct (search =? ""), (category =? "");
      repeat (progress (cbn; rewrite ?sappend_assoc, ?sappend_nil_r)); reflexivity.
  - destruct (user_type =? "");
      repeat (progress (cbn; rewrite ?sappend_assoc, ?sappend_nil_r)); reflexivity.
  - destruct (status =? "");
      repeat (progress (cbn; rewrite ?sappend_assoc, ?sappend_nil_r)); reflexivity.
Qed.

(* ================================================================== *)
(** * Further properties of the dashboard and the forms *)
(** X5.  The connection check assumes the probe's body is an object: when
    /health comes back as any other non-empty JSON value (an array, a
    string, a non-zero number), [health.get] raises [AttributeError], and
    [main_page] lets it through instead of showing the connectivity
    error. *)
Theorem main_page_raises_on_non_object_health net t h t1 :
  get_health net api (t ++ [StMarkdown brand_html]) = (Ok h, t1) ->
  truthy h = true ->
  is_dict h = false ->
  main_page net t = (Raise (AttributeError "get"), t1) /\
  errors_of t1 = errors_of t.
Proof.
  intros Hprobe Htruthy Hdict. split.
  - unfold main_page, check_connection, st_markdown, emit, bind, lift.
    fold brand_html. rewrite Hprobe, Htruthy.
    destruct h; try discriminate; reflexivity.
  - unfold get_health in Hprobe. rewrite make_request_eq in Hprobe.
    unfold make_request_result in Hprobe. cbn [request_for String.eqb Ascii.eqb Bool.eqb] in Hprobe.
    set (req := mkRequest "GET" _ None 10) in Hprobe.
    destruct (net _ req) as [resp|f].
    + injection Hprobe as Hv <-. unfold response_result in *.
      destruct (status_code resp =? 200)%Z.
      * destruct (resp_json resp) as [v|]; cbn in Hv |- *.
        -- rewrite !errors_of_app. cbn. now rewrite !app_nil_r.
        -- subst h. discriminate.
      * destruct (resp_json resp) as [body|]; cbn in Hv.
        -- destruct (get_method body "error" (VStr "Unknown error"));
             cbn in Hv; subst h; discriminate.
        -- subst h. discriminate.
    + injection Hprobe as <- _. discriminate.
Qed.

Lemma main_page_raises_on_non_object_health_witness :
  main_page net_array_health [] =
    (Raise (AttributeError "get"),
     [StMarkdown brand_html;
      Http (mkRequest "GET" (API_BASE +++ "/health") None 10)]) /\
  errors_of [StMarkdown brand_html;
             Http (mkRequest "GET" (API_BASE +++ "/health") None 10)] = errors_of [].
Proof.
  apply (main_page_raises_on_non_object_health net_array_health []
           (VList [VStr "up"])); reflexivity.
Defined.

Lemma get_dashboard_stats_requests net t v t1 :
  get_dashboard_stats net api t = (Ok v, t1) ->
  requests_of t1 =
    requests_of t ++ [mkRequest "GET" (API_BASE +++ "/analytics/dashboard") None 10].
Proof.
  unfold get_dashboard_stats. intros H.
  destruct (make_request_requests net api "/analytics/dashboard" "GET" None t)
    as (v' & t' & E & R).
  rewrite E in H. injection H as <- <-. exact R.
Qed.

(** X6.  The recent-activity list depends on the statistics: when the
    backend is connected but the statistics call comes back absent or
    without a true [success], the dashboard draws its two headings and
    nothing else, and the transactions are not requested at all: the
    requests of the pass are the probe and the statistics call. *)
Theorem no_activity_without_stats net t d t1 stats t2 :
  get_health net api (t ++ [StMarkdown brand_html]) = (Ok (VDict d), t1) ->
  assoc "status" d = Some (VStr "OK") ->
  get_dashboard_stats net api
    (t1 ++ [StMarkdown (div_html "sub-header" "📊 Dashboard Overview")])
    = (Ok stats, t2) ->
  and_success stats = Ok false ->
  main_page net t = (Ok tt, t2) /\
  requests_of t2 =
    requests_of t ++
    [mkRequest "GET" (API_BASE +++ "/health") None 10;
     mkRequest "GET" (API_BASE +++ "/analytics/dashboard") None 10].
Proof.
  intros Hprobe Hok Hstats Hfail. split.
  - unfold main_page, check_connection, dashboard_overview, st_markdown, emit,
      bind, lift, ret.
    fold brand_html. rewrite Hprobe.
    assert (Ht : truthy (VDict d) = true) by (destruct d; [discriminate|reflexivity]).
    rewrite Ht. cbn [get1 get_method]. rewrite Hok. cbn [eq_str String.eqb Ascii.eqb Bool.eqb negb].
    rewrite Hstats, Hfail. reflexivity.
  - rewrite (get_dashboard_stats_requests _ _ _ _ Hstats), requests_of_app.
    rewrite (get_health_requests _ _ _ _ Hprobe), requests_of_app. cbn.
    now rewrite !app_nil_r, <- app_assoc.
Qed.

Lemma no_activity_without_stats_witness :
  main_page net_healthy [] =
    (Ok tt,
     [StMarkdown brand_html;
      Http (mkRequest "GET" (API_BASE +++ "/health") None 10);
      StMarkdown (div_html "sub-header" "📊 Dashboard Overview");
      Http (mkRequest "GET" (API_BASE +++ "/analytics/dashboard") None 10)]) /\
  requests_of
    [StMarkdown brand_html;
     Http (mkRequest "GET" (API_BASE +++ "/health") None 10);
     StMarkdown (div_html "sub-header" "📊 Dashboard Overview");
     Http (mkRequest "GET" (API_BASE +++ "/analytics/dashboard") None 10)] =
    requests_of [] ++
    [mkRequest "GET" (API_BASE +++ "/health") None 10;
     mkRequest "GET" (API_BASE +++ "/analytics/dashboard") None 10].
Proof.
  apply (no_activity_without_stats net_healthy [] [("status", VStr "OK")]
           [StMarkdown brand_html;
            Http (mkRequest "GET" (API_BASE +++ "/health") None 10)]
           rejected_body); reflexivity.
Defined.

(** X7.  What the add-book handler does with the service's answer, once
    the form is submitted with its required fields filled.  On an accepted
    write (a body with a true [success]) it shows the success message,
    waits two seconds and reruns the script.  On a rejected or failed
    write it shows nothing of its own and returns, so a rejection that
    arrives with status 200 leaves no message on the page.  An answer that
    is a non-empty JSON value other than an object makes it raise. *)
Theorem add_book_reacts_to_answer net w t result t1 :
  ab_submitted w = true ->
  ab_title w <> "" -> ab_author w <> "" -> ab_category w <> "" ->
  add_book net api (book_data w) t = (Ok result, t1) ->
  add_book_form net w t =
    match and_success result with
    | Ok true =>
        (Raise RerunException,
         t1 ++ [StMarkdown (div_html "success-message" "✅ Book added successfully!");
                Sleep 2])
    | Ok false => (Ok tt, t1)
    | Raise e => (Raise e, t1)
    end.
Proof.
  intros Hs Ht Ha Hc Hadd. unfold add_book_form. rewrite Hs.
  apply String.eqb_neq in Ht, Ha, Hc. rewrite Ht, Ha, Hc. cbn [negb andb].
  unfold bind, lift. rewrite Hadd.
  destruct (and_success result) as [[|]|e]; try reflexivity.
  unfold st_markdown, time_sleep, st_rerun, emit, raise.
  now rewrite <- app_assoc.
Qed.

Lemma add_book_reacts_to_answer_witness :
  add_book_form net_accepting sample_book [] =
    (Raise RerunException,
     [Http (post_books sample_book)]
     ++ [StMarkdown (div_html "success-message" "✅ Book added successfully!");
         Sleep 2]) /\
  add_book_form net_rejecting sample_book [] =
    (Ok tt, [Http (post_books sample_book)]).
Proof.
  split.
  - apply (add_book_reacts_to_answer net_accepting sample_book []
             (VDict [("success", VBool true)]) [Http (post_books sample_book)]);
      (reflexivity || discriminate).
  - apply (add_book_reacts_to_answer net_rejecting sample_book [] rejected_body
             [Http (post_books sample_book)]);
      (reflexivity || discriminate).
Defined.

(* ================================================================== *)
(** * Further properties of frames and tables *)

Lemma has_key_cons {A} c k (v : A) r :
  has_key c ((k, v) :: r) = (k =? c) || has_key c r.
Proof. unfold has_key. cbn. now destruct (k =? c). Qed.

Lemma add_keys_origin c r : forall seen,
  existsb (String.eqb c) (add_keys seen r) = true ->
  existsb (String.eqb c) seen = true \/ has_key c r = true.
Proof.
  induction r as [|[k v] r IH]; intros seen H; [now left|].
  rewrite has_key_cons. cbn in H.
  destruct (existsb (String.eqb k) seen).
  - destruct (IH _ H) as [S | K]; [now left | right; now rewrite K, orb_true_r].
  - destruct (IH _ H) as [S | K]; [|right; now rewrite K, orb_true_r].
    rewrite existsb_app in S. cbn in S. rewrite orb_false_r in S.
    apply orb_true_iff in S. destruct S as [S | E]; [now left|].
    right. now rewrite (String.eqb_sym k c), E.
Qed.

Lemma fold_add_keys_origin c records : forall seen,
  existsb (String.eqb c) (fold_left add_keys records seen) = true ->
  existsb (String.eqb c) seen = true \/ existsb (has_key c) records = true.
Proof.
  induction records as [|r records IH]; intros seen H; [now left|].
  cbn in H |- *. destruct (IH _ H) as [S | K].
  - destruct (add_keys_origin _ _ _ S) as [S' | K']; [now left|].
    right. now rewrite K'.
  - right. now rewrite K, orb_true_r.
Qed.

Lemma has_key_assoc {A} c (r : list (string * A)) :
  has_key c r = true -> exists v, assoc c r = Some v.
Proof. unfold has_key. destruct (assoc c r) as [v|]; [now exists v | discriminate]. Qed.

(** A label is a column of the frame exactly when some record has it as
    a key. *)
Lemma has_column_iff c records :
  has_column c (frame_of_records records) = existsb (has_key c) records.
Proof.
  destruct (existsb (has_key c) records) eqn:E.
  - apply existsb_exists in E. destruct E as (r & Hr & K).
    destruct (has_key_assoc _ _ K) as (v & Hv).
    now apply (key_is_column c v r).
  - destruct (has_column c (frame_of_records records)) eqn:H; [|reflexivity].
    unfold has_column, frame_of_records, frame_columns in H. cbn [columns] in H.
    destruct (fold_add_keys_origin _ _ _ H) as [S | K]; [discriminate|].
    now rewrite K in E.
Qed.

Lemma fill_row_assoc_none c r cols :
  existsb (String.eqb c) cols = false -> assoc c (fill_row cols r) = None.
Proof.
  induction cols as [|c' cols IH]; [reflexivity|].
  cbn. rewrite (String.eqb_sym c c').
  destruct (c' =? c); [discriminate | exact IH].
Qed.

(** The cell a record gets in a column of its frame, as [row.get] sees
    it. *)
Lemma row_get_filled c default records r :
  In r records ->
  row_get (fill_row (columns (frame_of_records records)) r) c default =
  optional_cell c default records r.
Proof.
  intros Hr. unfold row_get, optional_cell.
  pose proof (has_column_iff c records) as Hc. unfold has_column in Hc.
  destruct (existsb (has_key c) records) eqn:E.
  - now rewrite (fill_row_assoc _ r _ Hc).
  - rewrite (fill_row_assoc_none _ r _ Hc).
    destruct (assoc c r) as [v|] eqn:A; [|reflexivity].
    exfalso. assert (T : existsb (has_key c) records = true).
    { apply existsb_exists. exists r. split; [exact Hr|].
      unfold has_key. now rewrite A. }
    congruence.
Qed.

(** X8.  The borrow form needs the copy count: when no record of the
    catalogue payload has an [availableCopies] field, and in particular
    when the catalogue is empty, building the book selector raises
    [KeyError] instead of reporting that no book is available. *)
Theorem borrow_selector_needs_counts (books : list record) (df_users : DataFrame) :
  (forall r, In r books -> has_key "availableCopies" r = false) ->
  borrow_book_selector (frame_of_records books) df_users =
    Raise (KeyError "availableCopies").
Proof.
  intros H. unfold borrow_book_selector, available_books, column.
  rewrite has_column_iff.
  destruct (existsb (has_key "availableCopies") books) eqn:E; [|reflexivity].
  apply existsb_exists in E. destruct E as (r & Hr & K).
  now rewrite (H r Hr) in K.
Qed.

Lemma borrow_selector_needs_counts_witness :
  borrow_book_selector (frame_of_records []) (frame_of_records sample_members) =
    Raise (KeyError "availableCopies") /\
  borrow_book_selector (frame_of_records sample_titles_only)
                       (frame_of_records sample_members) =
    Raise (KeyError "availableCopies").
Proof.
  split.
  - apply (borrow_selector_needs_counts [] (frame_of_records sample_members)).
    intros r [].
  - apply (borrow_selector_needs_counts sample_titles_only
             (frame_of_records sample_members)).
    intros r [<- | []]. reflexivity.
Defined.

Lemma has_key_row_getitem c (row : record) :
  has_key c row = true ->
  exists v, row_getitem row c = Ok v /\ forall default, row_get row c default = v.
Proof.
  intros H. destruct (has_key_assoc _ _ H) as (v & A). exists v.
  unfold row_getitem, row_get. now rewrite A.
Qed.

Lemma book_title_shown row b :
  assoc "bookId" row = Some b ->
  (forall d, b = VDict d -> has_key "title" d = true) ->
  book_title row = Ok (shown_title b).
Proof.
  intros A H. unfold book_title, row_getitem. rewrite A. cbn [rbind].
  destruct b; try reflexivity. cbn.
  destruct (has_key_assoc _ _ (H _ eq_refl)) as (t & T). now rewrite T.
Qed.

Lemma user_name_shown row u :
  assoc "userId" row = Some u ->
  (forall d, u = VDict d -> has_key "name" d = true) ->
  user_name row = Ok (shown_name u).
Proof.
  intros A H. unfold user_name, row_getitem. rewrite A. cbn [rbind].
  destruct u; try reflexivity. cbn.
  destruct (has_key_assoc _ _ (H _ eq_refl)) as (n & N). now rewrite N.
Qed.

Lemma transaction_has_table_fields r : is_transaction r -> has_table_fields r.
Proof.
  unfold is_transaction, transaction_record, has_table_fields, is_text_field,
    is_reference, has_key.
  intros H. repeat (apply andb_true_iff in H; destruct H as [H ?]).
  destruct (assoc "transactionId" r) as [[]|]; try discriminate.
  destruct (assoc "status" r) as [[]|]; try discriminate.
  destruct (assoc "borrowDate" r) as [[]|]; try discriminate.
  repeat split.
  - destruct (assoc "bookId" r) as [b|]; [|discriminate]. exists b. split; [reflexivity|].
    intros d ->. unfold is_text_field in *. now destruct (assoc "title" d) as [[]|].
  - destruct (assoc "userId" r) as [u|]; [|discriminate]. exists u. split; [reflexivity|].
    intros d ->. unfold is_text_field in *. now destruct (assoc "name" d) as [[]|].
Qed.

(** The line the transactions table builds for a well-formed row. *)
Lemma transactions_row_shown row :
  has_table_fields row -> transactions_row row = Ok (shown_transaction row).
Proof.
  intros (Ht & Hs & Hd & (b & Ab & Hb) & (u & Au & Hu)).
  destruct (has_key_row_getitem _ _ Ht) as (tid & Gt & Rt).
  destruct (has_key_row_getitem _ _ Hs) as (st & Gs & Rs).
  destruct (has_key_row_getitem _ _ Hd) as (bd & Gd & Rd).
  unfold transactions_row, shown_transaction.
  rewrite Gt, (book_title_shown _ _ Ab Hb), (user_name_shown _ _ Au Hu), Gs, Gd.
  cbn [rbind]. rewrite Rt, Rs, Rd.
  assert (Eb : row_get row "bookId" VNaN = b) by (unfold row_get; now rewrite Ab).
  assert (Eu : row_get row "userId" VNaN = u) by (unfold row_get; now rewrite Au).
  now rewrite Eb, Eu.
Qed.

Lemma has_key_filled c records r :
  In r records -> has_key c r = true ->
  assoc c (fill_row (columns (frame_of_records records)) r) = assoc c r.
Proof.
  intros Hr K. destruct (has_key_assoc _ _ K) as (v & A).
  pose proof (key_is_column c v r records Hr A) as Hc. unfold has_column in Hc.
  now rewrite (fill_row_assoc _ r _ Hc), A.
Qed.

Lemma has_table_fields_filled records r :
  In r records -> has_table_fields r ->
  has_table_fields (fill_row (columns (frame_of_records records)) r).
Proof.
  intros Hr (Ht & Hs & Hd & (b & Ab & Hb) & (u & Au & Hu)).
  assert (Kb : has_key "bookId" r = true) by (unfold has_key; now rewrite Ab).
  assert (Ku : has_key "userId" r = true) by (unfold has_key; now rewrite Au).
  unfold has_table_fields, has_key.
  rewrite !(has_key_filled _ records r Hr) by assumption.
  repeat split; try assumption.
  - exists b. now split.
  - exists u. now split.
Qed.

Lemma shown_frame_columns (l : list record) :
  frame_columns (map shown_transaction l) =
  match l with [] => [] | _ => transactions_table_columns end.
Proof.
  destruct l as [|row l]; [reflexivity|].
  unfold frame_columns. cbn [map fold_left].
  change (add_keys [] (shown_transaction row)) with transactions_table_columns.
  induction l as [|row' l IH]; [reflexivity|].
  cbn [map fold_left].
  change (add_keys transactions_table_columns (shown_transaction row'))
    with transactions_table_columns.
  exact IH.
Qed.

(** X9.  The transactions table on a payload of transactions of the API
    contract (string ids, statuses and dates, references that are bare ids
    or populated objects): it has one line per transaction under the
    seven headings, with the title and name of a populated reference and
    "Unknown" for a bare id.
    The default '' of [row.get] for the due and return dates applies only
    when no transaction of the page has the field: on a page that mixes
    returned and outstanding loans, the outstanding ones show NaN as their
    return date. *)
Theorem transactions_table_shape (records : list record) :
  Forall is_transaction records ->
  exists d,
    transactions_display (frame_of_records records) = Ok d /\
    columns d = match records with [] => [] | _ => transactions_table_columns end /\
    map (assoc "Book") (rows d) =
      map (fun r => Some (shown_title (row_get r "bookId" VNaN))) records /\
    map (assoc "User") (rows d) =
      map (fun r => Some (shown_name (row_get r "userId" VNaN))) records /\
    map (assoc "Due Date") (rows d) =
      map (fun r => Some (optional_cell "dueDate" (VStr "") records r)) records /\
    map (assoc "Return Date") (rows d) =
      map (fun r => Some (optional_cell "returnDate" (VStr "") records r)) records.
Proof.
  intros Htyped.
  assert (Hrecords : Forall has_table_fields records)
    by (eapply Forall_impl; [|exact Htyped]; apply transaction_has_table_fields).
  clear Htyped.
  destruct records as [|r0 records'] eqn:Erec.
  { exists (frame_of_records []). repeat split. }
  rewrite <- Erec in *.
  assert (Hne : records <> []) by (rewrite Erec; discriminate).
  clear Erec r0 records'.
  unfold transactions_display.
  assert (Hrows : rows (frame_of_records records) =
                  map (fill_row (columns (frame_of_records records))) records)
    by reflexivity.
  rewrite (mapM_map _ shown_transaction).
  2:{ rewrite Hrows. apply Forall_forall. intros row Hrow.
      apply in_map_iff in Hrow. destruct Hrow as (r & <- & Hr).
      apply transactions_row_shown, has_table_fields_filled; [exact Hr|].
      rewrite Forall_forall in Hrecords. now apply Hrecords. }
  cbn [rbind].
  exists (frame_of_records (map shown_transaction (rows (frame_of_records records)))).
  split; [reflexivity|].
  assert (Hcols : columns (frame_of_records
                    (map shown_transaction (rows (frame_of_records records)))) =
                  match records with [] => [] | _ => transactions_table_columns end).
  { unfold frame_of_records at 1. cbn [columns].
    rewrite shown_frame_columns, Hrows. now destruct records. }
  assert (Hd : rows (frame_of_records
                 (map shown_transaction (rows (frame_of_records records)))) =
               map (fill_row (columns (frame_of_records
                      (map shown_transaction (rows (frame_of_records records))))))
                   (map shown_transaction (rows (frame_of_records records))))
    by reflexivity.
  assert (Hk : match records with [] => [] | _ => transactions_table_columns end
               = transactions_table_columns) by now destruct records.
  rewrite Hk in Hcols.
  rewrite Hd, Hcols, Hrows. clear Hd Hcols Hrows Hk.
  split; [reflexivity|].
  assert (Hcell : forall c, existsb (String.eqb c) transactions_table_columns = true ->
            forall f : record -> value,
            (forall row, assoc c (shown_transaction row) = Some (f row)) ->
            map (assoc c)
              (map (fill_row transactions_table_columns)
                 (map shown_transaction
                    (map (fill_row (columns (frame_of_records records))) records))) =
            map (fun r => Some (f (fill_row (columns (frame_of_records records)) r)))
                records).
  { intros c Hc f Hf. rewrite !map_map. apply map_ext. intros r.
    now rewrite (fill_row_assoc _ _ _ Hc), Hf. }
  rewrite (Hcell "Book" eq_refl (fun row => shown_title (row_get row "bookId" VNaN)))
    by reflexivity.
  rewrite (Hcell "User" eq_refl (fun row => shown_name (row_get row "userId" VNaN)))
    by reflexivity.
  rewrite (Hcell "Due Date" eq_refl (fun row => row_get row "dueDate" (VStr "")))
    by reflexivity.
  rewrite (Hcell "Return Date" eq_refl (fun row => row_get row "returnDate" (VStr "")))
    by reflexivity.
  assert (Hown : forall c r, In r records -> has_key c r = true ->
            row_get (fill_row (columns (frame_of_records records)) r) c VNaN =
            row_get r c VNaN).
  { intros c r Hr K. unfold row_get. now rewrite (has_key_filled c records r Hr K). }
  rewrite Forall_forall in Hrecords.
  repeat split; apply map_ext_in; intros r Hr; f_equal.
  - destruct (Hrecords r Hr) as (_ & _ & _ & (b & Ab & _) & _).
    rewrite Hown; [reflexivity | exact Hr | unfold has_key; now rewrite Ab].
  - destruct (Hrecords r Hr) as (_ & _ & _ & _ & (u & Au & _)).
    rewrite Hown; [reflexivity | exact Hr | unfold has_key; now rewrite Au].
  - now apply row_get_filled.
  - now apply row_get_filled.
Qed.

Lemma transactions_table_shape_witness :
  exists d,
    transactions_display (frame_of_records sample_history) = Ok d /\
    columns d = transactions_table_columns /\
    map (assoc "Book") (rows d) = [Some (VStr "Emma"); Some (VStr "Dune")] /\
    map (assoc "User") (rows d) = [Some (VStr "Ravi"); Some (VStr "Asha")] /\
    map (assoc "Due Date") (rows d) =
      [Some (VStr "2024-03-15"); Some (VStr "2024-05-01")] /\
    map (assoc "Return Date") (rows d) = [Some (VStr "2024-03-10"); Some VNaN].
Proof.
  apply (transactions_table_shape sample_history).
  repeat constructor.
Defined.

Lemma mapM_get_raises k default (col : list value) x :
  In x col -> is_dict x = false ->
  mapM (fun v => get_method v k default) col = Raise (AttributeError "get").
Proof.
  intros Hin Hx. induction col as [|a col IH]; [destruct Hin|].
  cbn [mapM]. destruct a; try reflexivity.
  destruct Hin as [<- | Hin]; [discriminate|].
  cbn [get_method rbind]. now rewrite (IH Hin).
Qed.

Lemma mapM_length {A B} (f : A -> result B) (l : list A) : forall out,
  mapM f l = Ok out -> List.length out = List.length l.
Proof.
  induction l as [|a l IH]; intros out H; [now injection H as <-|].
  cbn in H. destruct (f a) as [b|]; [|discriminate]. cbn in H.
  destruct (mapM f l) as [bs|]; [|discriminate]. cbn in H.
  injection H as <-. cbn. now rewrite (IH bs).
Qed.

(** A column of a frame built from records can always be read. *)
Lemma column_of_frame c records :
  has_column c (frame_of_records records) = true ->
  exists col,
    column (frame_of_records records) c = Ok col /\
    List.length col = List.length records.
Proof.
  intros H. unfold column. rewrite H.
  exists (map (fun row => row_get row c VNaN) (rows (frame_of_records records))).
  split.
  - apply mapM_map. apply Forall_forall. intros row Hrow.
    cbn [rows frame_of_records] in Hrow. apply in_map_iff in Hrow.
    destruct Hrow as (r & <- & _).
    unfold row_getitem, row_get. unfold has_column in H.
    cbn [columns frame_of_records] in H. now rewrite (fill_row_assoc _ r _ H).
  - cbn [rows frame_of_records]. now rewrite !length_map.
Qed.

Lemma mapM_get_cases k default (col : list value) :
  (exists out, mapM (fun v => get_method v k default) col = Ok out) \/
  mapM (fun v => get_method v k default) col = Raise (AttributeError "get").
Proof.
  induction col as [|a col IH]; [left; now exists []|].
  cbn [mapM]. destruct a; try (right; reflexivity).
  cbn [get_method rbind].
  destruct IH as [(out & ->) | ->]; [left; eexists; reflexivity | right; reflexivity].
Qed.

(** X10.  The recent-activity table looks at the first row only before it
    reads the titles: when the first [bookId] of the page is an object
    and the [bookId] of any other row is not (a bare id, or NaN because
    the record has no such field), building the table raises
    [AttributeError].  The same holds for [userId], whatever the [bookId]
    cells are. *)
Theorem recent_activity_needs_uniform_references (records : list record) display :
  let df := frame_of_records records in
  select_columns df ["transactionId"; "status"; "borrowDate"] = Ok display ->
  (forall col first x,
     column df "bookId" = Ok col -> iloc0 col = Ok first -> is_dict first = true ->
     In x col -> is_dict x = false ->
     recent_activity_display df = Raise (AttributeError "get")) /\
  (forall col first x,
     column df "userId" = Ok col -> iloc0 col = Ok first -> is_dict first = true ->
     In x col -> is_dict x = false ->
     recent_activity_display df = Raise (AttributeError "get")).
Proof.
  intros df Hsel. split.
  - intros col first x Hcol Hfirst Hdict Hin Hx.
    unfold recent_activity_display. rewrite Hsel. cbn [rbind].
    rewrite (column_has_column _ _ _ Hcol), Hcol. cbn [rbind].
    rewrite Hfirst. cbn [rbind]. rewrite Hdict.
    now rewrite (mapM_get_raises _ _ _ _ Hin Hx).
  - intros col first x Hcol Hfirst Hdict Hin Hx.
    assert (Huser : forall with_book : DataFrame,
              (if has_column "userId" df then
                 col0 <-- column df "userId" ;;
                 first0 <-- iloc0 col0 ;;
                 if is_dict first0 then
                   col' <-- column df "userId" ;;
                   names <-- mapM (fun x => get_method x "name" (VStr "N/A")) col' ;;
                   Ok (set_column with_book "User" names)
                 else Ok with_book
               else Ok with_book) = Raise (AttributeError "get")).
    { intros with_book. rewrite (column_has_column _ _ _ Hcol), Hcol. cbn [rbind].
      rewrite Hfirst. cbn [rbind]. rewrite Hdict.
      now rewrite (mapM_get_raises _ _ _ _ Hin Hx). }
    unfold recent_activity_display. rewrite Hsel. cbn [rbind].
    destruct (has_column "bookId" df) eqn:B; [|cbn [rbind]; apply Huser].
    destruct (column_of_frame "bookId" records B) as (bcol & Hb & Hlen).
    fold df in Hb. rewrite Hb. cbn [rbind].
    assert (Hrecords : List.length col = List.length records).
    { unfold column in Hcol. destruct (has_column "userId" df); [|discriminate].
      rewrite (mapM_length _ _ _ Hcol). unfold df. cbn [rows frame_of_records].
      now rewrite length_map. }
    destruct bcol as [|b0 bcol'].
    { cbn in Hlen. rewrite <- Hlen in Hrecords. destruct col; [destruct Hin|discriminate]. }
    cbn [iloc0 rbind].
    destruct (is_dict b0); [|cbn [rbind]; apply Huser].
    destruct (mapM_get_cases "title" (VStr "N/A") (b0 :: bcol')) as [(titles & ->) | ->];
      [cbn [rbind]; apply Huser | reflexivity].
Qed.

Lemma recent_activity_needs_uniform_references_witness :
  recent_activity_display (frame_of_records [sample_full_loan; sample_plain_loan]) =
    Raise (AttributeError "get") /\
  recent_activity_display (frame_of_records [sample_full_loan; sample_half_loan]) =
    Raise (AttributeError "get").
Proof.
  split.
  - refine (proj1 (recent_activity_needs_uniform_references
                     [sample_full_loan; sample_plain_loan] _ eq_refl)
              _ (VDict [("title", VStr "Dune")]) (VStr "66b1f0")
              eq_refl eq_refl eq_refl _ eq_refl).
    right. left. reflexivity.
  - refine (proj2 (recent_activity_needs_uniform_references
                     [sample_full_loan; sample_half_loan] _ eq_refl)
              _ (VDict [("name", VStr "Asha")]) (VStr "66a2c4")
              eq_refl eq_refl eq_refl _ eq_refl).
    right. left. reflexivity.
Defined.

(** ** The plotted column, continued *)

Lemma numeric_columns_are_columns df c :
  In c (numeric_columns df) -> has_column c df = true.
Proof.
  unfold numeric_columns, has_column. intros H. apply filter_In in H.
  apply existsb_exists. exists c. split; [apply H | apply String.eqb_refl].
Qed.

(** X11.  For every payload whose integers fit 64 bits, the column chosen
    for the y axis is a column of the frame; the choice fails, with
    [IndexError], only for a frame that has at most one column, no
    [borrowCount], no [count] and no column of numeric dtype. *)
Theorem y_column_is_a_column (payload : list record) :
  int64_payload payload = true ->
  let df := frame_of_records payload in
  match y_column df with
  | Ok c => has_column c df = true
  | Raise e =>
      e = IndexError /\
      (List.length (columns df) <= 1)%nat /\
      has_column "borrowCount" df = false /\
      has_column "count" df = false /\
      numeric_columns df = []
  end.
Proof.
  intros _ df. unfold y_column.
  destruct (has_column "borrowCount" df) eqn:B; [exact B|].
  destruct (has_column "count" df) eqn:C; [exact C|].
  destruct (numeric_columns df) as [|c cs] eqn:N.
  - unfold has_column. destruct (columns df) as [|c0 [|c1 cols]]; cbn.
    + repeat split; auto.
    + repeat split; auto.
    + now rewrite String.eqb_refl, orb_true_r.
  - apply numeric_columns_are_columns. rewrite N. now left.
Qed.

Lemma y_column_is_a_column_witness :
  has_column "borrows" (frame_of_records renamed_count_payload) = true /\
  has_column "author" (frame_of_records sample_titles_only) = true.
Proof.
  split.
  - exact (y_column_is_a_column renamed_count_payload eq_refl).
  - exact (y_column_is_a_column sample_titles_only eq_refl).
Defined.

(* ================================================================== *)
(** * Further properties of the analytics labels *)

Tactic Notation "enumerate_from" constr(x) constr(lo) constr(bound) integer(count) :=
  let n := fresh "n" in
  let E := fresh "E" in
  assert (E : x = (Z.of_nat (Z.to_nat (x - lo)) + lo)%Z) by lia;
  set (n := Z.to_nat (x - lo)) in E;
  assert (n < bound)%nat by lia;
  rewrite E; clearbody n; clear E;
  do count (destruct n as [|n]; [reflexivity|]); lia.

(** X12.  Reading patterns: the month label never raises.  A month number
    from 1 to 12 gets the abbreviated name at that position, and any other
    integer, zero and negatives included, gets "Month " followed by the
    number. *)
Theorem reading_month_label_total (x : Z) :
  reading_month_label x =
    Ok (if (1 <=? x)%Z && (x <=? 12)%Z
        then nth (Z.to_nat (x - 1)) month_names_short ""
        else "Month " +++ str_int x).
Proof.
  unfold reading_month_label.
  destruct ((1 <=? x)%Z && (x <=? 12)%Z) eqn:R; [|reflexivity].
  apply andb_true_iff in R. destruct R as [L U].
  apply Z.leb_le in L, U.
  enumerate_from x 1%Z 12%nat 12.
Qed.

(** X13.  Monthly report: the month name is looked up without a range
    check, so Python's indexing decides.  A month number from 1 to 12 gets
    its name; 0 and the negatives down to -11 wrap around silently (0 is
    shown as December, -11 as January); anything above 12 or below -11
    raises [IndexError]. *)
Theorem report_month_name_wraps (x : Z) :
  report_month_name x =
    if (-11 <=? x)%Z && (x <=? 12)%Z
    then Ok (nth (Z.to_nat ((x - 1) mod 12)) month_names_full "")
    else Raise IndexError.
Proof.
  unfold report_month_name.
  destruct ((-11 <=? x)%Z && (x <=? 12)%Z) eqn:R.
  - apply andb_true_iff in R. destruct R as [L U].
    apply Z.leb_le in L, U.
    enumerate_from x (-11)%Z 24%nat 24.
  - unfold py_index. cbn [List.length month_names_full].
    apply andb_false_iff in R.
    destruct (x - 1 <? 0)%Z eqn:N.
    + apply Z.ltb_lt in N.
      destruct R as [R | R]; [apply Z.leb_gt in R | apply Z.leb_gt in R; lia].
      destruct (0 <=? x - 1 + Z.of_nat 12)%Z eqn:A; [apply Z.leb_le in A; lia|].
      reflexivity.
    + apply Z.ltb_ge in N.
      destruct R as [R | R]; [apply Z.leb_gt in R; lia | apply Z.leb_gt in R].
      destruct (x - 1 <? Z.of_nat 12)%Z eqn:A; [apply Z.ltb_lt in A; lia|].
      now rewrite andb_false_r.
Qed.

(* ================================================================== *)
(** * Further properties of the return form *)

Lemma mapM_nth_error {A B} (f : A -> result B) (l : list A) : forall out i a,
  mapM f l = Ok out -> nth_error l i = Some a ->
  exists b, nth_error out i = Some b /\ f a = Ok b.
Proof.
  induction l as [|x l IH]; intros out i a H Hi; [destruct i; discriminate|].
  cbn in H. destruct (f x) as [y|] eqn:Fx; [|discriminate]. cbn in H.
  destruct (mapM f l) as [ys|] eqn:Fl; [|discriminate]. cbn in H.
  injection H as <-. destruct i as [|i]; cbn in Hi |- *.
  - injection Hi as <-. now exists y.
  - now apply (IH ys i a).
Qed.

Lemma transaction_option_shape repr_other row id opt :
  row_getitem row "transactionId" = Ok (VStr id) ->
  transaction_option repr_other row = Ok opt ->
  exists rest, opt = id +++ " - " +++ rest.
Proof.
  intros Ht Hopt. unfold transaction_option in Hopt.
  destruct (book_title row) as [b|]; [|discriminate].
  destruct (user_name row) as [u|]; [|discriminate].
  unfold rbind in Hopt. rewrite Ht in Hopt.
  eexists. injection Hopt as <-. reflexivity.
Qed.

Lemma pd_DataFrame_records d df :
  pd_DataFrame d = Ok df -> exists records, df = frame_of_records records.
Proof.
  unfold pd_DataFrame. destruct d as [| | | | | |l|items]; try discriminate.
  - intros [= <-]. now exists [].
  - destruct (as_records l) as [rs|]; [intros [= <-]; now exists rs|].
    destruct (forallb is_scalar l); [|discriminate].
    intros [= <-]. eexists; reflexivity.
  - destruct items; [|discriminate]. intros [= <-]. now exists [].
Qed.

Lemma frame_with_cell_not_empty d df i row c v :
  pd_DataFrame d = Ok df ->
  nth_error (rows df) i = Some row ->
  row_getitem row c = Ok v ->
  df_empty df = false.
Proof.
  intros Hdf Hrow Hcell.
  destruct (pd_DataFrame_records _ _ Hdf) as (records & ->).
  unfold df_empty. cbn [rows columns frame_of_records] in *.
  destruct (map (fill_row (frame_columns records)) records) as [|r0 rs] eqn:R;
    [destruct i; discriminate|].
  destruct (frame_columns records) as [|c0 cols]; [|reflexivity].
  apply nth_error_In in Hrow. rewrite <- R in Hrow.
  apply in_map_iff in Hrow. destruct Hrow as (r & <- & _). discriminate.
Qed.

Lemma return_book_submit_requests net id t :
  requests_of
    (snd ((result <- return_book net api id ;;
           ok' <- lift (and_success result) ;;
           if ok' then
             st_markdown (div_html "success-message" "✅ Book returned successfully!") ;;;
             fine <- lift (get1 result "fine") ;;
             (if truthy fine then
                f <- lift (getitem result "fine") ;;
                emit (StWarning [Fmt f])
              else ret tt) ;;;
             time_sleep 3 ;;;
             st_rerun
           else ret tt : M unit) t))
  = requests_of t ++ [post_return id].
Proof.
  unfold return_book.
  destruct (make_request_requests net api "/transactions/return" "POST"
              (Some (VDict [("transactionId", VStr id)])) t) as (v & t' & E & R).
  cbn [request_for String.eqb Ascii.eqb Bool.eqb] in R.
  unfold bind, lift. rewrite E.
  destruct (and_success v) as [[|]|e]; cbn [snd]; try exact R.
  unfold st_markdown, time_sleep, st_rerun, emit, raise, ret.
  destruct (get1 v "fine") as [fine|e]; cbn [snd];
    [|rewrite requests_of_app; cbn; rewrite app_nil_r; exact R].
  destruct (truthy fine).
  - destruct (getitem v "fine") as [f|e]; cbn [snd];
      rewrite !requests_of_app; cbn; rewrite !app_nil_r; exact R.
  - cbn [snd]. rewrite !requests_of_app. cbn. rewrite !app_nil_r. exact R.
Qed.

Lemma get_borrowed_requests net t v t1 :
  get_transactions net api 1 100 "borrowed" t = (Ok v, t1) ->
  requests_of t1 = requests_of t ++ [get_borrowed].
Proof.
  unfold get_transactions. intros H.
  destruct (make_request_requests net api
              ("/transactions" +++ "?page=" +++ str_int 1 +++ "&limit=" +++ str_int 100
               +++ "&status=" +++ "borrowed") "GET" None t) as (v' & t' & E & R).
  cbn in H. cbn in E. rewrite E in H. injection H as <- <-. exact R.
Qed.

(** X14.  The return form end to end.  When the list of outstanding loans
    arrives, the user picks the entry of a row whose id is non-empty,
    contains no " - " and does not end in " -", and submits, the pass
    issues exactly two requests: the GET of the outstanding loans and one
    POST /transactions/return whose payload carries the id of the row that
    was picked. *)
Theorem return_sends_selected_id net repr_other t choice tx t1 d df options row id :
  get_transactions net api 1 100 "borrowed" (t ++ [StSubheader "Return a Book"])
    = (Ok tx, t1) ->
  and_success tx = Ok true ->
  getitem tx "data" = Ok d ->
  pd_DataFrame d = Ok df ->
  transaction_options repr_other df = Ok options ->
  nth_error (rows df) choice = Some row ->
  row_getitem row "transactionId" = Ok (VStr id) ->
  id <> "" ->
  str_contains " - " id = false ->
  str_endswith id " -" = false ->
  requests_of (snd (return_book_tab net repr_other choice true t)) =
    requests_of t ++ [get_borrowed; post_return id].
Proof.
  intros Hget Hok Hdata Hdf Hopts Hrow Hid Hne Hc He.
  destruct (mapM_nth_error _ _ _ _ _ Hopts Hrow) as (opt & Hnth & Hopt).
  destruct (transaction_option_shape _ _ _ _ Hid Hopt) as (rest & ->).
  pose proof (parse_entry id rest Hc He) as Hparse.
  pose proof (frame_with_cell_not_empty _ _ _ _ _ _ Hdf Hrow Hid) as Hempty.
  apply String.eqb_neq in Hne.
  unfold return_book_tab.
  unfold bind at 1. unfold emit at 1.
  unfold bind at 1. rewrite Hget.
  unfold bind at 1. unfold lift at 1. rewrite Hok.
  unfold bind at 1. unfold lift at 1. rewrite Hdata. cbn [rbind]. rewrite Hdf.
  rewrite Hempty. cbn [negb].
  unfold bind at 1. unfold lift at 1. rewrite Hopts.
  unfold bind at 1. unfold st_selectbox, bind at 1, emit, ret. rewrite Hnth.
  unfold bind at 1. unfold lift at 1. rewrite Hparse, Hne.
  rewrite return_book_submit_requests, requests_of_app. cbn [requests_of].
  rewrite app_nil_r, (get_borrowed_requests _ _ _ _ Hget), requests_of_app.
  cbn [requests_of]. now rewrite app_nil_r, <- app_assoc.
Qed.

Lemma return_sends_selected_id_witness :
  requests_of (snd (return_book_tab net_one_loan (fun _ => "") 0 true [])) =
    requests_of [] ++ [get_borrowed; post_return "TXN-1001"].
Proof.
  eapply (return_sends_selected_id net_one_loan (fun _ => "") [] 0 _ _ _ _ _ _
            "TXN-1001").
  - reflexivity.
  - reflexivity.
  - reflexivity.
  - reflexivity.
  - reflexivity.
  - reflexivity.
  - reflexivity.
  - discriminate.
  - reflexivity.
  - reflexivity.
Defined.

(** X15.  With no outstanding loan the return tab draws no form: whatever
    the widget state of the pass, it shows the "No borrowed books" notice
    after its one GET and sends no return request. *)
Theorem return_tab_without_loans net repr_other t choice submitted tx t1 d df :
  get_transactions net api 1 100 "borrowed" (t ++ [StSubheader "Return a Book"])
    = (Ok tx, t1) ->
  and_success tx = Ok true ->
  getitem tx "data" = Ok d ->
  pd_DataFrame d = Ok df ->
  df_empty df = true ->
  return_book_tab net repr_other choice submitted t =
    (Ok tt,
     t1 ++ [StSuccess [Lit "🎉 No borrowed books found - all books are returned!"]]) /\
  requests_of (snd (return_book_tab net repr_other choice submitted t)) =
    requests_of t ++ [get_borrowed].
Proof.
  intros Hget Hok Hdata Hdf Hempty.
  assert (E : return_book_tab net repr_other choice submitted t =
    (Ok tt,
     t1 ++ [StSuccess [Lit "🎉 No borrowed books found - all books are returned!"]])).
  { unfold return_book_tab.
    unfold bind at 1. unfold emit at 1.
    unfold bind at 1. rewrite Hget.
    unfold bind at 1. unfold lift at 1. rewrite Hok.
    unfold bind at 1. unfold lift at 1. rewrite Hdata. cbn [rbind]. rewrite Hdf.
    rewrite Hempty. reflexivity. }
  split; [exact E|]. rewrite E. cbn [snd].
  rewrite requests_of_app, (get_borrowed_requests _ _ _ _ Hget), requests_of_app.
  cbn. now rewrite !app_nil_r.
Qed.

Lemma return_tab_without_loans_witness :
  return_book_tab net_no_loans (fun _ => "") 0 true [] =
    (Ok tt,
     [StSubheader "Return a Book"; Http get_borrowed]
     ++ [StSuccess [Lit "🎉 No borrowed books found - all books are returned!"]]) /\
  requests_of (snd (return_book_tab net_no_loans (fun _ => "") 0 true [])) =
    requests_of [] ++ [get_borrowed].
Proof.
  eapply (return_tab_without_loans net_no_loans (fun _ => "") [] 0 true); reflexivity.
Defined.

Lemma prefix_nil_l s : String.prefix "" s = true.
Proof. now destruct s. Qed.

Lemma prefix_app_r a : forall b c,
  String.prefix a b = true -> String.prefix a (b +++ c) = true.
Proof.
  induction a as [|x a IH]; intros b c H; [apply prefix_nil_l|].
  destruct b as [|y b]; [discriminate|].
  cbn [append]. rewrite prefix_cons in *.
  destruct (ascii_dec x y); [now apply IH | discriminate].
Qed.

Lemma prefix_of_append p : forall post, String.prefix p (p +++ post) = true.
Proof. intros post. apply prefix_append. Qed.

(** The first piece of a split: what precedes the first match. *)
Lemma split_go_first sep s : forall cur,
  exists pre post tl,
    split_go sep s 0 cur = (cur +++ pre) :: tl /\
    s = pre +++ post /\
    forall p q, pre = p +++ q -> q <> "" -> String.prefix sep (q +++ post) = false.
Proof.
  induction s as [|c s IH]; intros cur.
  - exists "", "", []. cbn. rewrite sappend_nil_r. repeat split.
    intros p q E Hq. destruct p, q; try discriminate. now elim Hq.
  - cbn [split_go]. destruct (String.prefix sep (String c s)) eqn:P.
    + exists "", (String c s). eexists. rewrite sappend_nil_r. repeat split.
      intros p q E Hq. destruct p, q; try discriminate. now elim Hq.
    + destruct (IH (cur +++ String c "")) as (pre & post & tl & E & -> & Hno).
      exists (String c pre), post, tl. split; [|split; [reflexivity|]].
      * rewrite E, sappend_assoc. reflexivity.
      * intros p q Epq Hq. destruct p as [|c' p].
        -- cbn in Epq. subst q. exact P.
        -- cbn in Epq. injection Epq as _ Epq. now apply (Hno p q).
Qed.

Lemma no_match_no_contains sep pre :
  sep <> "" ->
  (forall p q, pre = p +++ q -> q <> "" -> String.prefix sep q = false) ->
  str_contains sep pre = false.
Proof.
  intros Hsep. induction pre as [|c pre IH]; intros H.
  - cbn. destruct sep; [contradiction | reflexivity].
  - cbn [str_contains]. rewrite (H "" (String c pre) eq_refl) by discriminate.
    cbn [orb]. apply IH. intros p q -> Hq. now apply (H (String c p) q).
Qed.

(** X16.  Whatever entry the selector returns, taking the id out of it
    never raises, and the id obtained is a prefix of the entry that
    contains no " - ": an id that itself contains the separator is cut
    at its first occurrence before it is sent. *)
Theorem parsed_id_has_no_separator (selected : option string) :
  exists id,
    parse_transaction_id selected = Ok id /\
    str_contains " - " id = false /\
    String.prefix id match selected with Some s => s | None => "" end = true.
Proof.
  destruct selected as [s|]; [|exists ""; repeat split].
  unfold parse_transaction_id.
  destruct (s =? "") eqn:Z; cbn [negb].
  - apply String.eqb_eq in Z. subst s. exists "". repeat split.
  - unfold str_split. cbn [String.eqb]. cbn [rbind].
    destruct (split_go_first " - " s "") as (pre & post & tl & E & -> & Hno).
    rewrite E. exists pre. split; [reflexivity|]. split.
    + apply no_match_no_contains; [discriminate|].
      intros p q Epq Hq.
      destruct (String.prefix " - " q) eqn:P; [|reflexivity].
      rewrite <- (Hno p q Epq Hq). symmetry. now apply prefix_app_r.
    + apply prefix_of_append.
Qed.

(* ================================================================== *)
(** * Further properties of the transactions view *)

Lemma table_after_fetch_no_request v t :
  requests_of
    (snd ((ok <- lift (and_success v) ;;
           if ok then
             df_transactions <- lift (d <-- getitem v "data" ;; pd_DataFrame d) ;;
             if negb (df_empty df_transactions) then
               display <- lift (transactions_display df_transactions) ;;
               emit (StDataframe display)
             else ret tt
           else ret tt : M unit) t))
  = requests_of t.
Proof.
  unfold bind, lift, emit, ret.
  destruct (and_success v) as [[|]|e]; cbn [snd]; try reflexivity.
  destruct (d <-- getitem v "data" ;; pd_DataFrame d) as [df|e]; cbn [snd];
    try reflexivity.
  destruct (df_empty df); cbn [negb snd]; try reflexivity.
  destruct (transactions_display df) as [display|e]; cbn [snd]; try reflexivity.
  rewrite requests_of_app. cbn. now rewrite app_nil_r.
Qed.

(** X17.  The transactions view issues exactly one request per pass,
    whatever the service answers and whether or not the table can be
    built.  With the first entry of the status filter (the empty one) the
    request has no [status] parameter; with one of the other three it
    carries that status. *)
Theorem view_transactions_one_request net filter_index t :
  requests_of (snd (view_transactions_tab net filter_index t)) =
    requests_of t ++
    [mkRequest "GET"
       (API_BASE +++ "/transactions?page=1&limit=100"
        +++ match filter_index with
            | 1%nat => "&status=borrowed"
            | 2%nat => "&status=returned"
            | 3%nat => "&status=overdue"
            | _ => ""
            end)
       None 10].
Proof.
  unfold view_transactions_tab, st_selectbox.
  unfold bind at 1. unfold emit at 1.
  unfold bind at 1. unfold bind at 1. unfold emit at 1. unfold ret at 1.
  assert (H : forall status url,
            request_for api ("/transactions" +++ "?page=" +++ str_int 1 +++ "&limit="
                             +++ str_int 100 +++ status) "GET" None =
              Some (mkRequest "GET" url None 10) ->
            forall t0,
            requests_of t0 = requests_of t ->
            requests_of
              (snd ((transactions <-
                       _make_request net api
                         ("/transactions" +++ "?page=" +++ str_int 1 +++ "&limit="
                          +++ str_int 100 +++ status) "GET" None ;;
                     ok <- lift (and_success transactions) ;;
                     if ok then
                       df_transactions <-
                         lift (d <-- getitem transactions "data" ;; pd_DataFrame d) ;;
                       if negb (df_empty df_transactions) then
                         display <- lift (transactions_display df_transactions) ;;
                         emit (StDataframe display)
                       else ret tt
                     else ret tt : M unit) t0)) =
            requests_of t ++ [mkRequest "GET" url None 10]).
  { intros status url Hreq t0 Ht0.
    destruct (make_request_requests net api
                ("/transactions" +++ "?page=" +++ str_int 1 +++ "&limit="
                 +++ str_int 100 +++ status) "GET" None t0) as (v & t' & E & R).
    rewrite Hreq, Ht0 in R. unfold bind at 1. rewrite E.
    now rewrite table_after_fetch_no_request. }
  assert (Ht0 : requests_of
                  ((t ++ [StSubheader "All Transactions"]) ++
                   [StSelectbox "Filter by Status"
                      (map VStr [""; "borrowed"; "returned"; "overdue"])]) =
                requests_of t)
    by (rewrite !requests_of_app; cbn; now rewrite !app_nil_r).
  destruct filter_index as [|[|[|[|n]]]]; cbn [nth_error];
    try (apply (H "" _ eq_refl _ Ht0));
    try (apply (H ("&status=" +++ "borrowed") _ eq_refl _ Ht0));
    try (apply (H ("&status=" +++ "returned") _ eq_refl _ Ht0));
    try (apply (H ("&status=" +++ "overdue") _ eq_refl _ Ht0)).
  destruct n; apply (H "" _ eq_refl _ Ht0).
Qed.
